(** * grammY OpenTelemetry plugin: span lifecycle of [src/plugin.ts]

    A shallow embedding of [updateType], [openTelemetryTransformer] and
    [openTelemetry] (with the update-scoped transformer and the [trace]
    closure it creates), followed by the properties of the span lifecycle.

    Tracer and span calls are recorded, in call order, in an event log.
    An [async] function is a state transformer returning how its promise
    settles; [await] runs the callee to settlement before the caller goes
    on, so tasks started without being awaited are not interleaved.
    [traced], which drops the promise of [trace], is run the same way;
    [getHttpTracer] is the list of SDK calls it makes. The diagnostics
    log level of [openTelemetry] is left out. *)

From Stdlib Require Import String Ascii List ZArith Bool Arith Lia.
From Stdlib Require DecimalString.
Import ListNotations.
Open Scope string_scope.
Open Scope list_scope.

(** ** JavaScript values *)

Set Warnings "-register-all".

Inductive value : Type :=
| VUndefined
| VNull
| VBool (b : bool)
| VNumber (n : Z)
| VString (s : string)
| VArray (items : list value)
| VObject (fields : list (string * value)).

(** An object: its own enumerable string keys in enumeration order. *)
Definition object : Type := list (string * value).

Definition Object_keys (o : object) : list string := map fst o.

Fixpoint get (o : object) (k : string) : value :=
  match o with
  | [] => VUndefined
  | (k', v) :: rest => if String.eqb k' k then v else get rest k
  end.

(** JavaScript truthiness, as used by [if (options.root)]. *)
Definition truthy (v : value) : bool :=
  match v with
  | VUndefined | VNull => false
  | VBool b => b
  | VNumber n => negb (Z.eqb n 0)
  | VString s => negb (String.eqb s "")
  | VArray _ | VObject _ => true
  end.

(** ** OpenTelemetry API: contexts, spans and the call log *)

Definition span_id : Type := nat.
Definition Tracer : Type := nat.

(** [otel.Context]: an immutable map; the entry under the span key is kept
    apart from the other entries. *)
Record Context : Type := mkContext {
  ctx_span : option span_id;
  ctx_entries : list (string * value)
}.

Definition ROOT_CONTEXT : Context := mkContext None [].

(** [otel.trace.setSpan(context, span)] *)
Definition setSpan (c : Context) (s : span_id) : Context :=
  mkContext (Some s) (ctx_entries c).

(** [otel.trace.getSpan(context)] *)
Definition getSpan (c : Context) : option span_id := ctx_span c.

Record SpanContext : Type := mkSpanContext { spanId : span_id }.

Inductive event : Type :=
| SpanStart (tracer : Tracer) (span : span_id) (name : string)
            (options : object) (parent : option span_id)
| AddEvent (span : span_id) (name : string) (attributes : object)
| SetAttribute (span : span_id) (key : string) (v : value)
| SpanEnd (span : span_id).

Definition event_span (e : event) : span_id :=
  match e with
  | SpanStart _ s _ _ _ | AddEvent s _ _ | SetAttribute s _ _ | SpanEnd s => s
  end.

Definition is_end_of (s : span_id) (e : event) : bool :=
  match e with
  | SpanEnd s' => Nat.eqb s' s
  | _ => false
  end.

Definition is_start (e : event) : bool :=
  match e with
  | SpanStart _ _ _ _ _ => true
  | _ => false
  end.

Definition is_start_of (s : span_id) (e : event) : bool :=
  match e with
  | SpanStart _ s' _ _ _ => Nat.eqb s' s
  | _ => false
  end.

(** How often span [s] was ended in a log. *)
Definition ends (s : span_id) (l : list event) : nat :=
  length (filter (is_end_of s) l).

(** The spans started in a log. *)
Definition starts (l : list event) : list event := filter is_start l.

(** The parent recorded for span [s] when it was started. *)
Fixpoint parent_of (s : span_id) (l : list event) : option (option span_id) :=
  match l with
  | [] => None
  | SpanStart _ s' _ _ p :: rest =>
      if Nat.eqb s' s then Some p else parent_of s rest
  | _ :: rest => parent_of s rest
  end.

(** ** The state an update is processed in *)

(** [ctx.openTelemetry] without its [trace] member, which is the function
    [trace] below. *)
Record OpenTelemetry : Type := mkOpenTelemetry {
  ot_spanContext : SpanContext;
  ot_context : Context;
  ot_tracer : Tracer
}.

Record World : Type := mkWorld {
  log : list event;                 (* tracer and span calls so far *)
  next_span : span_id;              (* the next span the SDK hands out *)
  active : Context;                 (* otel.context.active() *)
  otContext : Context;              (* `let otContext` of the middleware *)
  ctx_openTelemetry : option OpenTelemetry;   (* ctx.openTelemetry *)
  api_transformers : list Tracer;   (* installed by ctx.api.config.use,
                                       most recent first *)
  unhandled : list value            (* rejections nobody handles *)
}.

Definition with_log (l : list event) (w : World) : World :=
  mkWorld l (next_span w) (active w) (otContext w) (ctx_openTelemetry w)
          (api_transformers w) (unhandled w).

Definition with_next_span (n : span_id) (w : World) : World :=
  mkWorld (log w) n (active w) (otContext w) (ctx_openTelemetry w)
          (api_transformers w) (unhandled w).

Definition with_active (c : Context) (w : World) : World :=
  mkWorld (log w) (next_span w) c (otContext w) (ctx_openTelemetry w)
          (api_transformers w) (unhandled w).

Definition with_otContext (c : Context) (w : World) : World :=
  mkWorld (log w) (next_span w) (active w) c (ctx_openTelemetry w)
          (api_transformers w) (unhandled w).

Definition with_ctx_openTelemetry (o : option OpenTelemetry) (w : World)
  : World :=
  mkWorld (log w) (next_span w) (active w) (otContext w) o
          (api_transformers w) (unhandled w).

Definition with_api_transformers (ts : list Tracer) (w : World) : World :=
  mkWorld (log w) (next_span w) (active w) (otContext w)
          (ctx_openTelemetry w) ts (unhandled w).

Definition with_unhandled (es : list value) (w : World) : World :=
  mkWorld (log w) (next_span w) (active w) (otContext w)
          (ctx_openTelemetry w) (api_transformers w) es.

Definition emit (e : event) (w : World) : World :=
  with_log (log w ++ [e]) w.

(** ** Promises *)

Inductive Settled (A : Type) : Type :=
| Fulfilled (a : A)
| Rejected (reason : value)
| Pending.                          (* the promise never settles *)

Arguments Fulfilled {A} a.
Arguments Rejected {A} reason.
Arguments Pending {A}.

Definition Async (A : Type) : Type := World -> Settled A * World.

Definition resolve {A} (a : A) : Async A := fun w => (Fulfilled a, w).
Definition reject {A} (reason : value) : Async A :=
  fun w => (Rejected reason, w).
Definition never {A} : Async A := fun w => (Pending, w).

(** [const x = await p; k x] inside an async function: a rejection of [p]
    is thrown at the await and, nothing catching it, rejects the function's
    own promise; what follows the await does not run. *)
Definition await {A B} (p : Async A) (k : A -> Async B) : Async B :=
  fun w =>
    match p w with
    | (Fulfilled a, w') => k a w'
    | (Rejected e, w') => (Rejected e, w')
    | (Pending, w') => (Pending, w')
    end.

(** [p.then(onFulfilled)] whose resulting promise is dropped, inside a
    [new Promise((resolve) => ...)] that only [onFulfilled] resolves: when
    [p] rejects, the rejection has no handler and the outer promise is
    never settled. *)
Definition then_resolve {A B} (p : Async A) (onFulfilled : A -> Async B)
  : Async B :=
  fun w =>
    match p w with
    | (Fulfilled a, w') => onFulfilled a w'
    | (Rejected e, w') => (Pending, with_unhandled (e :: unhandled w') w')
    | (Pending, w') => (Pending, w')
    end.

Definition modify (f : World -> World) : Async unit :=
  fun w => (Fulfilled tt, f w).

Definition read {A} (f : World -> A) : Async A :=
  fun w => (Fulfilled (f w), w).

Declare Scope async_scope.
Delimit Scope async_scope with async.
Notation "x <- p ;; k" := (await p (fun x => k))
  (at level 100, p at next level, right associativity) : async_scope.
Notation "p ;; k" := (await p (fun _ => k))
  (at level 100, right associativity) : async_scope.
Open Scope async_scope.

(** ** Tracer and span operations *)

(** [tracer.startSpan(name, options, context)]: the parent is the span of
    [context] (of the active context when none is passed), and there is no
    parent when [options.root] is truthy. *)
Definition startSpan (tracer : Tracer) (name : string) (options : object)
    (context : option Context) : Async span_id :=
  fun w =>
    let c := match context with Some c => c | None => active w end in
    let parent := if truthy (get options "root") then None else getSpan c in
    let s := next_span w in
    (Fulfilled s,
     with_next_span (S s) (emit (SpanStart tracer s name options parent) w)).

Definition addEvent (s : span_id) (name : string) (attributes : object)
  : Async unit := modify (emit (AddEvent s name attributes)).

Definition setAttribute (s : span_id) (key : string) (v : value)
  : Async unit := modify (emit (SetAttribute s key v)).

Definition span_end (s : span_id) : Async unit := modify (emit (SpanEnd s)).

Definition spanContext (s : span_id) : SpanContext := mkSpanContext s.

(** [tracer.startActiveSpan(name, fn)]: starts a span under the active
    context and calls [fn] with that span made active. *)
Definition startActiveSpan {A} (tracer : Tracer) (name : string)
    (fn : span_id -> Async A) : Async A :=
  outer <- read active ;;
  span <- startSpan tracer name [] None ;;
  modify (with_active (setSpan outer span)) ;;
  fun w => let (r, w') := fn span w in (r, with_active outer w').

(** ** The plugin *)

(** An [AbortSignal], when the caller passes one. *)
Definition Signal : Type := option nat.

(** The delegate of a transformer: [prev(method, payload, signal)]. It
    returns a promise; a delegate that throws before returning one is
    identified with one returning a rejected promise. *)
Definition Prev : Type := string -> value -> Signal -> Async value.

Definition Transformer : Type :=
  Prev -> string -> value -> Signal -> Async value.

Record TransformerOptions : Type := mkTransformerOptions {
  skip : string -> value -> bool
}.

(** The default [{ skip: () => false }]. *)
Definition default_options : TransformerOptions :=
  mkTransformerOptions (fun _ _ => false).

(** [Object.keys(update).filter((k) => k !== "update_id")[0]]; [None] is
    [undefined], the element at index 0 of an empty array. *)
Definition updateType (update : object) : option string :=
  hd_error
    (filter (fun k => negb (String.eqb k "update_id")) (Object_keys update)).

(** A string or [undefined] inside a template literal. *)
Definition template (x : option string) : string :=
  match x with
  | Some s => s
  | None => "undefined"
  end.

(** A string or [undefined] as a value. *)
Definition to_value (x : option string) : value :=
  match x with
  | Some s => VString s
  | None => VUndefined
  end.

Definition TypeError : value := VString "TypeError".

(** What [JSON.stringify(payload)] does on the payload of a call: a
    string; [undefined], for a payload that is left out; or a throw, for a
    payload with no JSON form (one holding an [InputFile], whose [toJSON]
    throws, a [BigInt] or a cycle). *)
Inductive Stringified : Type :=
| Text (s : string)
| NoText
| Throws (e : value).

(** The value [JSON.stringify] returned, when it returned. *)
Definition returned (r : Stringified) : option value :=
  match r with
  | Text s => Some (VString s)
  | NoText => Some VUndefined
  | Throws _ => None
  end.

Section Plugin.

(** [JSON.stringify] on what was decoded from JSON, the update and the
    response of a call: a string. *)
Variable JSON_stringify : value -> string.

(** [JSON.stringify] on the payload of a call. *)
Variable serialize : value -> Stringified.

(** [{ body: JSON.stringify(response) }] *)
Definition body_of (v : value) : object :=
  [("body", VString (JSON_stringify v))].

(** [{ body: JSON.stringify(payload) }]; a throw of [JSON.stringify] leaves
    the function it is evaluated in. *)
Definition request_body (payload : value) : Async object :=
  fun w =>
    match serialize payload with
    | Text s => (Fulfilled [("body", VString s)], w)
    | NoText => (Fulfilled [("body", VUndefined)], w)
    | Throws e => (Rejected e, w)
    end.

(** The standalone transformer. What the executor of [new Promise] throws
    rejects the promise. *)
Definition openTelemetryTransformer (tracer : Tracer)
    (options : TransformerOptions) : Transformer :=
  fun prev method payload signal =>
    if skip options method payload then prev method payload signal
    else
      startActiveSpan tracer ("api." ++ method)%string (fun span =>
        body <- request_body payload ;;
        addEvent span "api.request" body ;;
        setAttribute span "api.method" (VString method) ;;
        then_resolve (prev method payload signal) (fun response =>
          addEvent span "api.response" (body_of response) ;;
          span_end span ;;
          resolve response)).

(** The transformer the middleware installs with [ctx.api.config.use]. It
    reads the closure variable [otContext] when it is called. *)
Definition updateTransformer (tracer : Tracer) : Transformer :=
  fun prev method payload signal =>
    parent <- read otContext ;;
    apiSpan <- startSpan tracer ("api." ++ method)%string [] (Some parent) ;;
    body <- request_body payload ;;
    addEvent apiSpan "api.request" body ;;
    setAttribute apiSpan "api.method" (VString method) ;;
    response <- prev method payload signal ;;
    addEvent apiSpan "api.response" (body_of response) ;;
    span_end apiSpan ;;
    resolve response.

(** [ctx.openTelemetry.trace]. [ctx.openTelemetry.context] is read from
    the context object at each call. *)
Definition trace (tracer : Tracer) (name : string) (attributes : object)
    (fn : span_id -> Async value) : Async unit :=
  ot <- read ctx_openTelemetry ;;
  match ot with
  | None => reject TypeError
  | Some ot =>
      customSpan <- startSpan tracer name attributes (Some (ot_context ot)) ;;
      modify (fun w => with_otContext (setSpan (otContext w) customSpan) w) ;;
      _ <- fn customSpan ;;
      span_end customSpan
  end.

(** The middleware returned by [openTelemetry(tracer)], on a context whose
    [update] is [update]. *)
Definition openTelemetry (tracer : Tracer) (update : object)
    (next : Async unit) : Async unit :=
  rootSpan <- startSpan tracer ("update." ++ template (updateType
      update))%string
                [("root", VBool true)] None ;;
  modify (fun w => with_otContext (setSpan (active w) rootSpan) w) ;;
  modify (fun w => with_api_transformers (tracer :: api_transformers w) w) ;;
  setAttribute rootSpan "update.type" (to_value (updateType update)) ;;
  setAttribute rootSpan "update.body"
    (VString (JSON_stringify (VObject update))) ;;
  modify (fun w =>
    with_ctx_openTelemetry
      (Some (mkOpenTelemetry (spanContext rootSpan)
                             (setSpan (active w) rootSpan) tracer)) w) ;;
  next ;;
  span_end rootSpan.

(** ** Handlers running downstream of the middleware *)

(** The transport at the bottom of the transformer chain. *)
Definition Transport : Type := string -> value -> Settled value.

Definition callApi (transport : Transport) : Prev :=
  fun method payload _ w => (transport method payload, w).

(** A call through [ctx.api]: the installed transformers wrap the
    transport, the most recently installed outermost. *)
Definition ctx_api (transport : Transport) (method : string)
    (payload : value) : Async value :=
  fun w =>
    fold_right (fun tracer prev => updateTransformer tracer prev)
               (callApi transport) (api_transformers w)
               method payload None w.

(** What a handler does with the plugin: it returns, throws, awaits a
    promise that never settles, awaits [ctx.openTelemetry.trace] or awaits
    a call through [ctx.api], and goes on. *)
Inductive Handler : Type :=
| Return
| Throw (reason : value)
| Never
| Trace (name : string) (attributes : object) (fn : Handler)
        (rest : Handler)
| Api (method : string) (payload : value) (rest : Handler).

Fixpoint run (tracer : Tracer) (transport : Transport) (h : Handler)
  : Async unit :=
  match h with
  | Return => resolve tt
  | Throw reason => reject reason
  | Never => never
  | Trace name attributes fn rest =>
      trace tracer name attributes
        (fun _ => run tracer transport fn ;; resolve VUndefined) ;;
      run tracer transport rest
  | Api method payload rest =>
      _ <- ctx_api transport method payload ;;
      run tracer transport rest
  end.

End Plugin.

(** ** A serializer to run examples with

    [JSON.stringify] on values without control characters in strings;
    [undefined] is skipped as an object member and printed as [null] in an
    array. *)

Definition quote : string := String (ascii_of_nat 34) "".
Definition backslash : ascii := ascii_of_nat 92.

Fixpoint escape (s : string) : string :=
  match s with
  | EmptyString => EmptyString
  | String c rest =>
      if orb (Ascii.eqb c (ascii_of_nat 34)) (Ascii.eqb c backslash)
      then String backslash (String c (escape rest))
      else String c (escape rest)
  end.

Definition quoted (s : string) : string := (quote ++ escape s ++ quote)%string.

Definition join (parts : list string) : string := String.concat "," parts.

Definition is_undefined (v : value) : bool :=
  match v with
  | VUndefined => true
  | _ => false
  end.

Fixpoint stringify (v : value) : string :=
  match v with
  | VUndefined => "undefined"
  | VNull => "null"
  | VBool true => "true"
  | VBool false => "false"
  | VNumber n => DecimalString.NilZero.string_of_int (Z.to_int n)
  | VString s => quoted s
  | VArray items =>
      ("[" ++ join (map (fun x => if is_undefined x then "null"
                                  else stringify x) items) ++ "]")%string
  | VObject fields =>
      let members :=
        (fix members (fs : list (string * value)) : list string :=
           match fs with
           | [] => []
           | (k, x) :: rest =>
               if is_undefined x then members rest
               else (quoted k ++ ":" ++ stringify x)%string :: members rest
           end) in
      ("{" ++ join (members fields) ++ "}")%string
  end.

(** An [InputFile] as its own members show it; its [toJSON] throws. *)
Definition is_input_file (v : value) : bool :=
  match v with
  | VObject fields =>
      existsb (fun kv => String.eqb (fst kv) "fileData") fields
  | _ => false
  end.

Fixpoint holds_input_file (v : value) : bool :=
  orb (is_input_file v)
    match v with
    | VArray items =>
        (fix any (xs : list value) : bool :=
           match xs with
           | [] => false
           | x :: rest => orb (holds_input_file x) (any rest)
           end) items
    | VObject fields =>
        (fix any (fs : list (string * value)) : bool :=
           match fs with
           | [] => false
           | (_, x) :: rest => orb (holds_input_file x) (any rest)
           end) fields
    | _ => false
    end.

Definition input_file_error : value := VString "InputFile.toJSON".

(** [JSON.stringify] on a payload, to run examples with. *)
Definition stringify_payload (payload : value) : Stringified :=
  match payload with
  | VUndefined => NoText
  | _ =>
      if holds_input_file payload then Throws input_file_error
      else Text (stringify payload)
  end.

(** The payload of a [sendPhoto] that uploads a file. *)
Definition photo : value :=
  VObject [("chat_id", VNumber 1);
           ("photo", VObject [("consumed", VBool false);
                              ("fileData", VString "/tmp/cat.png")])].

Definition empty_world : World :=
  mkWorld [] 0 ROOT_CONTEXT ROOT_CONTEXT None [] [].

Definition ok_transport : Transport := fun _ _ => Fulfilled (VBool true).

Definition msg_update : object :=
  [("update_id", VNumber 1); ("message", VObject [("text", VString "hi")])].

(** ** The worlds in which the callbacks are called

    Each is read off the code by running it with a callback that never
    settles: what the code did before calling it is what is left. *)

(** The world [fn] is called in by [trace]. *)
Definition at_fn (tracer : Tracer) (name : string) (attributes : object)
    (w : World) : World :=
  snd (trace tracer name attributes (fun _ => never) w).

(** The world [next] is called in by the middleware. *)
Definition at_next (JSON_stringify : value -> string) (tracer : Tracer)
    (update : object) (w : World) : World :=
  snd (openTelemetry JSON_stringify tracer update never w).

(** What a transformer logs on the span [s] of a call between starting it
    and calling [prev]: nothing when serializing the payload threw. *)
Definition request_events (s : span_id) (method : string)
    (r : Stringified) : list event :=
  match returned r with
  | Some body =>
      [AddEvent s "api.request" [("body", body)];
       SetAttribute s "api.method" (VString method)]
  | None => []
  end.

(** The world [prev] is called in by the update-scoped transformer; when
    serializing the payload throws, [prev] is not called and this is the
    world the transformer is left in. *)
Definition at_prev (JSON_stringify : value -> string)
    (serialize : value -> Stringified) (tracer : Tracer)
    (method : string) (payload : value) (w : World) : World :=
  snd (updateTransformer JSON_stringify serialize tracer (fun _ _ _ => never)
         method payload None w).

(** The world [prev] is called in by the standalone transformer when the
    call is not skipped: the new span is the active one. When serializing
    the payload throws, [prev] is not called. *)
Definition at_prev_standalone (JSON_stringify : value -> string)
    (serialize : value -> Stringified)
    (tracer : Tracer) (method : string) (payload : value) (w : World)
  : World :=
  with_active (setSpan (active w) (next_span w))
    (snd (openTelemetryTransformer JSON_stringify serialize tracer
        default_options
            (fun _ _ _ => never) method payload None w)).

(** The world a handler of the update [msg_update] runs in. *)
Definition in_update : World := at_next stringify 7 msg_update empty_world.

Definition boom : value := VString "boom".

Definition failing_transport : Transport := fun _ _ => Rejected boom.

Definition hi : value := VObject [("text", VString "hi")].

(** A handler with a manual span inside a manual span, and an outbound call
    in each. *)
Definition nested_handler : Handler :=
  Trace "a" [] (Api "first" hi (Trace "b" [] (Api "second" hi Return) Return))
        Return.

(** A world whose caller runs inside a span of its own, span 5. *)
Definition ambient_world : World :=
  mkWorld [] 6 (mkContext (Some 5) []) ROOT_CONTEXT None [] [].

(** A handler that sends one message. *)
Definition send_handler : Handler := Api "sendMessage" hi Return.

(** Options that skip polling. *)
Definition skip_polling : TransformerOptions :=
  mkTransformerOptions (fun method _ => String.eqb method "getUpdates").

(** What a computation added to a log that held [n] calls before. *)
Definition added (n : nat) (w : World) : list event := skipn n (log w).

(** An asynchronous computation that leaves [ctx.openTelemetry] as it
    found it, however it settles. *)
Definition keeps_ctx_openTelemetry {A} (p : Async A) : Prop :=
  forall w, ctx_openTelemetry (snd (p w)) = ctx_openTelemetry w.

(** An asynchronous computation that only adds to the log, and only calls
    on spans numbered [n] or above, when run where the spans below [n]
    are taken. *)
Definition adds_from (n : span_id) {A} (p : Async A) : Prop :=
  forall w,
    n <= next_span w ->
    n <= next_span (snd (p w))
    /\ exists l,
        log (snd (p w)) = log w ++ l
        /\ Forall (fun e => n <= event_span e) l.

(** ** [traced] *)

(** A call whose promise the caller drops: the caller goes on with
    [undefined] however the call settles, and a rejection has no handler.
    The call is run to where it settles or stalls, as for [await]. *)
Definition dropped {A} (p : Async A) : Async unit :=
  fun w =>
    match p w with
    | (Rejected e, w') =>
        (Fulfilled tt, with_unhandled (e :: unhandled w') w')
    | (_, w') => (Fulfilled tt, w')
    end.

(** The middleware [traced(name, fn, attributes)]: its body is the one
    statement [ctx.openTelemetry.trace(name, attributes, (span) => fn(ctx,
    span, next))], without [return] or [await]. Reading [.trace] of a
    missing [ctx.openTelemetry] throws in the middleware itself. The
    [trace] stored there was made with the tracer stored beside it.
    [attributes] is [None] when the argument is left out. *)
Definition traced (name : string)
    (fn : span_id -> Async unit -> Async unit)
    (attributes : option object) (next : Async unit) : Async unit :=
  ot <- read ctx_openTelemetry ;;
  match ot with
  | None => reject TypeError
  | Some ot =>
      dropped
        (trace (ot_tracer ot) name
           (match attributes with Some a => a | None => [] end)
           (fun span => fn span next ;; resolve VUndefined))
  end.

(** ** [getHttpTracer] *)

(** [{ ...base, k: v }] on an object that is being built: an own key keeps
    its place and takes the new value, a new key goes last. *)
Fixpoint set_property (o : object) (k : string) (v : value) : object :=
  match o with
  | [] => [(k, v)]
  | (k', v') :: rest =>
      if String.eqb k' k then (k', v) :: rest
      else (k', v') :: set_property rest k v
  end.

(** The object literal [{ ...base, ...extra }]. *)
Definition spread (base extra : object) : object :=
  fold_left (fun o kv => set_property o (fst kv) (snd kv)) extra base.

(** The second argument of [getHttpTracer]; a member is [None] when the
    object does not have it. *)
Record HttpTracerOptions : Type := mkHttpTracerOptions {
  exporterConfig : option value;
  providerConfig : option object
}.

(** The default [{ providerConfig: {} }]. *)
Definition default_http_options : HttpTracerOptions :=
  mkHttpTracerOptions None (Some []).

(** [new Resource(attributes)] *)
Definition Resource (attributes : object) : value := VObject attributes.

(** The calls [getHttpTracer] makes on the SDK. *)
Inductive sdk_call : Type :=
| NewOTLPTraceExporter (config : option value)
| NewBasicTracerProvider (config : object)
| AddBatchSpanProcessor
| Register
| GetTracer (name : string).

Section HttpTracer.

(** [conventions.SEMRESATTRS_SERVICE_NAME] *)
Variable SEMRESATTRS_SERVICE_NAME : string.

(** The object literal passed to [new BasicTracerProvider]; spreading
    [undefined] adds nothing. *)
Definition providerArgument (serviceName : string)
    (options : HttpTracerOptions) : object :=
  spread
    [("resource", Resource [(SEMRESATTRS_SERVICE_NAME, VString serviceName)])]
    (match providerConfig options with Some c => c | None => [] end).

(** [getHttpTracer(serviceName, options)] as the SDK calls it makes, in
    order; the tracer it returns is the one the last call gives.
    [options] is [None] when the argument is left out. *)
Definition getHttpTracer (serviceName : string)
    (options : option HttpTracerOptions) : list sdk_call :=
  let options :=
    match options with Some o => o | None => default_http_options end in
  [NewOTLPTraceExporter (exporterConfig options);
   NewBasicTracerProvider (providerArgument serviceName options);
   AddBatchSpanProcessor;
   Register;
   GetTracer "grammy-otel"].

End HttpTracer.

(** ** What handlers are compared with *)

(** How a handler settles with the plugin taken out: [trace(name,
    attributes, fn)] is then [fn], and a call through [ctx.api] is the
    transport. *)
Fixpoint settles (transport : Transport) (h : Handler) : Settled unit :=
  match h with
  | Return => Fulfilled tt
  | Throw reason => Rejected reason
  | Never => Pending
  | Trace _ _ fn rest =>
      match settles transport fn with
      | Fulfilled _ => settles transport rest
      | other => other
      end
  | Api method payload rest =>
      match transport method payload with
      | Fulfilled _ => settles transport rest
      | Rejected e => Rejected e
      | Pending => Pending
      end
  end.

(** The transformers installed on [ctx.api] around the transport. *)
Definition chain (JSON_stringify : value -> string)
    (serialize : value -> Stringified) (transport : Transport)
    (ts : list Tracer) : Prev :=
  fold_right (fun tracer prev => updateTransformer JSON_stringify serialize
      tracer prev)
             (callApi transport) ts.

(** A piece of log that is about the spans [n] to [m - 1] only and in which
    each of them is ended once. *)
Definition closed_between (n m : span_id) (l : list event) : Prop :=
  Forall (fun e => n <= event_span e < m) l
  /\ forall s, n <= s < m -> ends s l = 1.

(** The contexts a world holds point at spans that exist. *)
Definition contexts_exist (w : World) : Prop :=
  (forall p, getSpan (otContext w) = Some p -> p < next_span w)
  /\ (forall ot p,
        ctx_openTelemetry w = Some ot ->
        getSpan (ot_context ot) = Some p -> p < next_span w).

(** A span is started under a span that was started before it. *)
Definition parent_is_older (e : event) : Prop :=
  match e with
  | SpanStart _ s _ _ (Some p) => p < s
  | _ => True
  end.

(** A span is either named as an outbound call, or started under the span
    of [c], or started with a truthy [root] option and without parent. *)
Definition api_or_under (c : Context) (e : event) : Prop :=
  match e with
  | SpanStart _ _ name options parent =>
      String.prefix "api." name = true
      \/ parent = (if truthy (get options "root") then None else getSpan c)
  | _ => True
  end.

(** A provider configuration of a user, with a resource of its own. *)
Definition own_resource : value := Resource [("service.name", VString "other")].

Definition config_with_resource : object :=
  [("forceFlushTimeoutMillis", VNumber 500); ("resource", own_resource)].

Definition config_without_resource : object :=
  [("forceFlushTimeoutMillis", VNumber 500)].

Definition options_with_resource : HttpTracerOptions :=
  mkHttpTracerOptions None (Some config_with_resource).

Definition options_without_resource : HttpTracerOptions :=
  mkHttpTracerOptions (Some (VObject [("url", VString "http://collector")]))
                      (Some config_without_resource).

(** A traced function that throws. *)
Definition throwing : span_id -> Async unit -> Async unit :=
  fun _ _ => reject boom.

(** * Properties *)

(** ** Logs *)

Lemma ends_app (s : span_id) (l1 l2 : list event) :
  ends s (l1 ++ l2) = ends s l1 + ends s l2.
Proof.
  unfold ends. rewrite filter_app, length_app. reflexivity.
Qed.

Lemma ends_end (s : span_id) : ends s [SpanEnd s] = 1.
Proof.
  unfold ends. simpl. rewrite Nat.eqb_refl. reflexivity.
Qed.

Lemma log_emit (e : event) (w : World) : log (emit e w) = log w ++ [e].
Proof. reflexivity. Qed.

Lemma ends_of_later_spans (s n : span_id) (l : list event) :
  Forall (fun e => n <= event_span e) l ->
  s < n ->
  ends s l = 0.
Proof.
  intros Hl Hs. unfold ends.
  induction Hl as [| e l He _ IH]; simpl; [reflexivity |].
  destruct e as [tracer s' name options parent | s' name attributes
                 | s' key v | s']; simpl in *; try exact IH.
  destruct (Nat.eqb_spec s' s) as [-> | _]; [lia | exact IH].
Qed.

Section Lifecycle.

Variable JSON_stringify : value -> string.
Variable serialize : value -> Stringified.

(** *** [trace] *)

Lemma at_fn_log tracer name attributes w ot :
  ctx_openTelemetry w = Some ot ->
  log (at_fn tracer name attributes w) =
    log w ++ [SpanStart tracer (next_span w) name attributes
                (if truthy (get attributes "root") then None
                 else getSpan (ot_context ot))].
Proof.
  intros Hot. unfold at_fn, trace, await, read, never. simpl.
  rewrite Hot. reflexivity.
Qed.

Lemma at_fn_otContext tracer name attributes w ot :
  ctx_openTelemetry w = Some ot ->
  otContext (at_fn tracer name attributes w) =
    setSpan (otContext w) (next_span w).
Proof.
  intros Hot. unfold at_fn, trace, await, read, never. simpl.
  rewrite Hot. reflexivity.
Qed.

Lemma trace_runs_fn tracer name attributes fn w ot :
  ctx_openTelemetry w = Some ot ->
  trace tracer name attributes fn w =
    match fn (next_span w) (at_fn tracer name attributes w) with
    | (Fulfilled _, w2) => (Fulfilled tt, emit (SpanEnd (next_span w)) w2)
    | (Rejected e, w2) => (Rejected e, w2)
    | (Pending, w2) => (Pending, w2)
    end.
Proof.
  intros Hot. unfold at_fn, trace, await, read, never. simpl.
  rewrite Hot. simpl.
  destruct (fn (next_span w) _) as [[v | e |] w2]; reflexivity.
Qed.

(** C1 (amended). A span opened by [trace(name, attributes, fn)] is ended
    by [trace] exactly once, right after [fn]'s promise is fulfilled.
    When [fn] throws or rejects, the rejection propagates to the caller of
    [trace] and the span is not ended; when [fn] never settles, neither
    does [trace], and the span is not ended. Here [fn] only adds [l] to
    the log and does not end the span itself. *)
Theorem trace_ends_span_when_fn_fulfils
    tracer name attributes fn w ot r w2 l :
  ctx_openTelemetry w = Some ot ->
  ends (next_span w) (log w) = 0 ->
  fn (next_span w) (at_fn tracer name attributes w) = (r, w2) ->
  log w2 = log (at_fn tracer name attributes w) ++ l ->
  ends (next_span w) l = 0 ->
  match r with
  | Fulfilled _ =>
      trace tracer name attributes fn w =
        (Fulfilled tt, emit (SpanEnd (next_span w)) w2)
      /\ ends (next_span w) (log (emit (SpanEnd (next_span w)) w2)) = 1
  | Rejected e =>
      trace tracer name attributes fn w = (Rejected e, w2)
      /\ ends (next_span w) (log w2) = 0
  | Pending =>
      trace tracer name attributes fn w = (Pending, w2)
      /\ ends (next_span w) (log w2) = 0
  end.
Proof.
  intros Hot Hfresh Hfn Hlog Hl.
  pose proof (trace_runs_fn tracer name attributes fn w ot Hot) as Hrun.
  rewrite Hfn in Hrun.
  assert (Hw2 : ends (next_span w) (log w2) = 0).
  { rewrite Hlog, (at_fn_log _ _ _ _ _ Hot), !ends_app, Hfresh, Hl.
    unfold ends. simpl. reflexivity. }
  destruct r as [v | e |]; split; try assumption.
  rewrite log_emit, ends_app, Hw2, ends_end. reflexivity.
Qed.

(** *** The transformers *)

Lemma at_prev_log tracer method payload w :
  log (at_prev JSON_stringify serialize tracer method payload w) =
    log w ++
    SpanStart tracer (next_span w) ("api." ++ method)%string []
      (getSpan (otContext w))
    :: request_events (next_span w) method (serialize payload).
Proof.
  unfold at_prev, updateTransformer, request_body, request_events, await,
    read, never. simpl.
  destruct (serialize payload) as [body | | e]; simpl;
    rewrite <- ?app_assoc; reflexivity.
Qed.

Lemma at_prev_fields tracer method payload w :
  next_span (at_prev JSON_stringify serialize tracer method payload w)
    = S (next_span w)
  /\ otContext (at_prev JSON_stringify serialize tracer method payload w)
     = otContext w
  /\ ctx_openTelemetry
       (at_prev JSON_stringify serialize tracer method payload w)
     = ctx_openTelemetry w.
Proof.
  unfold at_prev, updateTransformer, request_body, await, read, never. simpl.
  destruct (serialize payload) as [body | | e]; repeat split.
Qed.

Lemma updateTransformer_runs_prev tracer prev method payload signal w :
  updateTransformer JSON_stringify serialize tracer prev method payload
      signal w =
    match serialize payload with
    | Throws e =>
        (Rejected e, at_prev JSON_stringify serialize tracer method payload w)
    | _ =>
        match prev method payload signal
                (at_prev JSON_stringify serialize tracer method payload w)
        with
        | (Fulfilled response, w2) =>
            (Fulfilled response,
             emit (SpanEnd (next_span w))
               (emit (AddEvent (next_span w) "api.response"
                        [("body", VString (JSON_stringify response))]) w2))
        | (Rejected e, w2) => (Rejected e, w2)
        | (Pending, w2) => (Pending, w2)
        end
    end.
Proof.
  unfold at_prev, updateTransformer, request_body, await, read, never. simpl.
  destruct (serialize payload) as [body | | e]; simpl; try reflexivity;
    destruct (prev method payload signal _) as [[response | e |] w2];
    reflexivity.
Qed.

Lemma at_prev_standalone_log tracer method payload w :
  log (at_prev_standalone JSON_stringify serialize tracer method payload w) =
    log w ++
    SpanStart tracer (next_span w) ("api." ++ method)%string []
      (getSpan (active w))
    :: request_events (next_span w) method (serialize payload).
Proof.
  unfold at_prev_standalone, openTelemetryTransformer, startActiveSpan,
    then_resolve, request_body, request_events, await, read, never.
  simpl.
  destruct (serialize payload) as [body | | e]; simpl;
    rewrite <- ?app_assoc; reflexivity.
Qed.

Lemma openTelemetryTransformer_runs_prev
    tracer options prev method payload signal w :
  skip options method payload = false ->
  openTelemetryTransformer JSON_stringify serialize tracer options prev
      method payload signal w =
    match serialize payload with
    | Throws e =>
        (Rejected e,
         with_active (active w)
           (at_prev_standalone JSON_stringify serialize tracer method
              payload w))
    | _ =>
        match prev method payload signal
                (at_prev_standalone JSON_stringify serialize tracer method
                   payload w)
        with
        | (Fulfilled response, w2) =>
            (Fulfilled response,
             with_active (active w)
               (emit (SpanEnd (next_span w))
                  (emit (AddEvent (next_span w) "api.response"
                           [("body", VString (JSON_stringify response))])
                     w2)))
        | (Rejected e, w2) =>
            (Pending, with_active (active w)
                        (with_unhandled (e :: unhandled w2) w2))
        | (Pending, w2) => (Pending, with_active (active w) w2)
        end
    end.
Proof.
  intros Hskip.
  unfold at_prev_standalone, openTelemetryTransformer, startActiveSpan,
    then_resolve, request_body, await, read, never.
  rewrite Hskip. simpl.
  destruct (serialize payload) as [body | | e]; simpl; try reflexivity;
    destruct (prev method payload signal _) as [[response | e |] w2];
    reflexivity.
Qed.

Lemma ends_request_events s method r : ends s (request_events s method r) = 0.
Proof.
  unfold request_events. destruct (returned r); reflexivity.
Qed.

Lemma ends_after_request s tracer name parent method r l :
  ends s l = 0 ->
  ends s (l ++ SpanStart tracer s name [] parent :: request_events s method r)
  = 0.
Proof.
  intros Hl. rewrite ends_app, Hl.
  change (SpanStart tracer s name [] parent :: request_events s method r)
    with ([SpanStart tracer s name [] parent] ++ request_events s method r).
  rewrite ends_app, ends_request_events. reflexivity.
Qed.

(** C3 (amended). For a call that is not skipped, in the standalone and in
    the update-scoped transformer alike, the span opened for the call is
    ended, once, when the wrapped call is fulfilled; when the wrapped call
    rejects or never settles the span is not ended, and neither is it when
    serializing the payload throws and the wrapped call is not made. Here
    [prev] only adds [l] to the log and does not end the span itself. *)
Theorem api_span_ends_when_call_fulfils
    tracer options prev method payload signal w :
  skip options method payload = false ->
  ends (next_span w) (log w) = 0 ->
  (forall r w2 l,
      prev method payload signal
        (at_prev_standalone JSON_stringify serialize tracer method payload w)
        = (r, w2) ->
      log w2 =
        log (at_prev_standalone JSON_stringify serialize tracer method
               payload w)
        ++ l ->
      ends (next_span w) l = 0 ->
      ends (next_span w)
        (log (snd (openTelemetryTransformer JSON_stringify serialize tracer
                     options prev method payload signal w)))
      = match returned (serialize payload), r with
        | Some _, Fulfilled _ => 1
        | _, _ => 0
        end)
  /\
  (forall r w2 l,
      prev method payload signal
        (at_prev JSON_stringify serialize tracer method payload w)
        = (r, w2) ->
      log w2 =
        log (at_prev JSON_stringify serialize tracer method payload w) ++ l ->
      ends (next_span w) l = 0 ->
      ends (next_span w)
        (log (snd (updateTransformer JSON_stringify serialize tracer prev
                     method payload signal w)))
      = match returned (serialize payload), r with
        | Some _, Fulfilled _ => 1
        | _, _ => 0
        end).
Proof.
  intros Hskip Hfresh. split; intros r w2 l Hprev Hlog Hl.
  - rewrite (openTelemetryTransformer_runs_prev _ _ _ _ _ _ _ Hskip), Hprev.
    assert (Hat : ends (next_span w)
                    (log (at_prev_standalone JSON_stringify serialize tracer
                            method payload w)) = 0).
    { rewrite at_prev_standalone_log. apply ends_after_request, Hfresh. }
    assert (Hw2 : ends (next_span w) (log w2) = 0).
    { rewrite Hlog, ends_app, Hat, Hl. reflexivity. }
    destruct (serialize payload) as [body | | e];
      destruct r as [response | e' |]; simpl;
      try exact Hw2; try exact Hat;
      rewrite !ends_app, Hw2, ends_end; reflexivity.
  - rewrite updateTransformer_runs_prev, Hprev.
    assert (Hat : ends (next_span w)
                    (log (at_prev JSON_stringify serialize tracer method
                            payload w)) = 0).
    { rewrite at_prev_log. apply ends_after_request, Hfresh. }
    assert (Hw2 : ends (next_span w) (log w2) = 0).
    { rewrite Hlog, ends_app, Hat, Hl. reflexivity. }
    destruct (serialize payload) as [body | | e];
      destruct r as [response | e' |]; simpl;
      try exact Hw2; try exact Hat;
      rewrite !ends_app, Hw2, ends_end; reflexivity.
Qed.


(** C7. When [skip(method, payload)] is true the standalone transformer is
    the wrapped delegate: same settlement, same state, hence no span. *)
Theorem skipped_call_is_forwarded
    tracer options prev method payload signal w :
  skip options method payload = true ->
  openTelemetryTransformer JSON_stringify serialize tracer options prev method
      payload signal w
  = prev method payload signal w.
Proof.
  intros Hskip. unfold openTelemetryTransformer.
  rewrite Hskip. reflexivity.
Qed.

(** *** The middleware *)

Lemma at_next_log tracer update w :
  log (at_next JSON_stringify tracer update w) =
    log w ++
    [SpanStart tracer (next_span w)
       ("update." ++ template (updateType update))%string
       [("root", VBool true)] None;
     SetAttribute (next_span w) "update.type"
       (to_value (updateType update));
     SetAttribute (next_span w) "update.body"
       (VString (JSON_stringify (VObject update)))].
Proof.
  unfold at_next, openTelemetry, await, read, never. simpl.
  rewrite <- !app_assoc. reflexivity.
Qed.

Lemma at_next_ctx_openTelemetry tracer update w :
  ctx_openTelemetry (at_next JSON_stringify tracer update w) =
    Some (mkOpenTelemetry (spanContext (next_span w))
                          (setSpan (active w) (next_span w)) tracer).
Proof. reflexivity. Qed.

Lemma openTelemetry_runs_next tracer update next w :
  openTelemetry JSON_stringify tracer update next w =
    match next (at_next JSON_stringify tracer update w) with
    | (Fulfilled _, w2) => (Fulfilled tt, emit (SpanEnd (next_span w)) w2)
    | (Rejected e, w2) => (Rejected e, w2)
    | (Pending, w2) => (Pending, w2)
    end.
Proof.
  unfold at_next, openTelemetry, await, read, never. simpl.
  destruct (next _) as [[[] | e |] w2]; reflexivity.
Qed.

(** C4 (amended). When [next()] is fulfilled, the root span is ended, once,
    after everything [next()] did. When [next()] rejects, the middleware
    rejects with the same error, so it swallows nothing, and the root span
    is not ended; when [next()] never settles, neither does the
    middleware. Here [next] only adds [l] to the log and does not end the
    root span itself. *)
Theorem root_span_ends_after_next_fulfils tracer update next w r w2 l :
  ends (next_span w) (log w) = 0 ->
  next (at_next JSON_stringify tracer update w) = (r, w2) ->
  log w2 = log (at_next JSON_stringify tracer update w) ++ l ->
  ends (next_span w) l = 0 ->
  match r with
  | Fulfilled _ =>
      openTelemetry JSON_stringify tracer update next w =
        (Fulfilled tt, emit (SpanEnd (next_span w)) w2)
      /\ log (emit (SpanEnd (next_span w)) w2) =
           log (at_next JSON_stringify tracer update w) ++ l
           ++ [SpanEnd (next_span w)]
      /\ ends (next_span w) (log (emit (SpanEnd (next_span w)) w2)) = 1
  | Rejected e =>
      openTelemetry JSON_stringify tracer update next w = (Rejected e, w2)
      /\ ends (next_span w) (log w2) = 0
  | Pending =>
      openTelemetry JSON_stringify tracer update next w = (Pending, w2)
      /\ ends (next_span w) (log w2) = 0
  end.
Proof.
  intros Hfresh Hnext Hlog Hl.
  pose proof (openTelemetry_runs_next tracer update next w) as Hrun.
  rewrite Hnext in Hrun.
  assert (Hw2 : ends (next_span w) (log w2) = 0).
  { rewrite Hlog, at_next_log, !ends_app, Hfresh, Hl. reflexivity. }
  destruct r as [[] | e |]; repeat split; try assumption.
  - rewrite log_emit, Hlog, <- app_assoc. reflexivity.
  - rewrite log_emit, ends_app, Hw2, ends_end. reflexivity.
Qed.

(** C5. One run of the middleware on an update starts, itself, exactly
    one span: it is named [update.<type>], it is started with
    [root: true], and it has no parent whatever the active context of the
    caller. What the middleware adds to the log after [next()] starts no
    span. Here [next] only adds [l] to the log. *)
Theorem one_root_span_per_update tracer update next w r w2 l :
  next (at_next JSON_stringify tracer update w) = (r, w2) ->
  log w2 = log (at_next JSON_stringify tracer update w) ++ l ->
  exists tail,
    log (snd (openTelemetry JSON_stringify tracer update next w)) =
      log w ++
      SpanStart tracer (next_span w)
        ("update." ++ template (updateType update))%string
        [("root", VBool true)] None
      :: SetAttribute (next_span w) "update.type"
           (to_value (updateType update))
      :: SetAttribute (next_span w) "update.body"
           (VString (JSON_stringify (VObject update)))
      :: l ++ tail
    /\ starts tail = [].
Proof.
  intros Hnext Hlog.
  rewrite openTelemetry_runs_next, Hnext.
  destruct r as [[] | e |]; simpl.
  - exists [SpanEnd (next_span w)]. split; [| reflexivity].
    rewrite Hlog, at_next_log, <- !app_assoc. reflexivity.
  - exists []. split; [| reflexivity].
    rewrite Hlog, at_next_log, <- !app_assoc, app_nil_r. reflexivity.
  - exists []. split; [| reflexivity].
    rewrite Hlog, at_next_log, <- !app_assoc, app_nil_r. reflexivity.
Qed.

(** *** The type of an update *)

Lemma first_kept (f : string -> bool) (keys : list string) :
  match hd_error (filter f keys) with
  | Some k =>
      exists before after,
        keys = before ++ k :: after
        /\ f k = true
        /\ Forall (fun k' => f k' = false) before
  | None => Forall (fun k' => f k' = false) keys
  end.
Proof.
  induction keys as [| k keys IH]; simpl.
  - constructor.
  - destruct (f k) eqn:Hk; simpl.
    + exists [], keys. repeat split; [assumption | constructor].
    + destruct (hd_error (filter f keys)) as [k0 |].
      * destruct IH as (before & after & -> & Hk0 & Hbefore).
        exists (k :: before), after.
        repeat split; [assumption | constructor; assumption].
      * constructor; assumption.
Qed.

(** C9 (amended). [updateType] returns the first key of the update other
    than [update_id]. When there is none it returns [undefined] and raises
    nothing; the middleware has no guard for this case: it starts the
    root span as [update.undefined], sets [update.type] to [undefined],
    goes on to [next()] and settles as [next()] does. *)
Theorem updateType_is_first_other_key update :
  match updateType update with
  | Some k =>
      exists before after,
        Object_keys update = before ++ k :: after
        /\ k <> "update_id"
        /\ Forall (fun k' => k' = "update_id") before
  | None =>
      Forall (fun k' => k' = "update_id") (Object_keys update)
      /\ forall tracer next w,
          log (at_next JSON_stringify tracer update w) =
            log w ++
            [SpanStart tracer (next_span w) "update.undefined"
               [("root", VBool true)] None;
             SetAttribute (next_span w) "update.type" VUndefined;
             SetAttribute (next_span w) "update.body"
               (VString (JSON_stringify (VObject update)))]
          /\ fst (openTelemetry JSON_stringify tracer update next w) =
               match fst (next (at_next JSON_stringify tracer update w)) with
               | Fulfilled _ => Fulfilled tt
               | Rejected e => Rejected e
               | Pending => Pending
               end
  end.
Proof.
  pose proof (first_kept (fun k => negb (String.eqb k "update_id"))
                (Object_keys update)) as H.
  assert (Hfalse : forall keys,
             Forall (fun k' => negb (String.eqb k' "update_id") = false) keys ->
             Forall (fun k' => k' = "update_id") keys).
  { intros keys HF. eapply Forall_impl; [| exact HF].
    intros k Hk. apply negb_false_iff in Hk.
    apply String.eqb_eq. exact Hk. }
  destruct (updateType update) as [k |] eqn:Htype;
    unfold updateType in Htype; rewrite Htype in H.
  - destruct H as (before & after & Hkeys & Hk & Hbefore).
    exists before, after. repeat split; auto.
    apply negb_true_iff in Hk. apply String.eqb_neq. exact Hk.
  - split; [auto |]. intros tracer next w. split.
    + rewrite at_next_log. unfold updateType. rewrite Htype. reflexivity.
    + rewrite openTelemetry_runs_next.
      destruct (next _) as [[[] | e |] w2]; reflexivity.
Qed.

(** *** Handlers *)

Lemma await_keeps {A B} (p : Async A) (k : A -> Async B) :
  keeps_ctx_openTelemetry p ->
  (forall a, keeps_ctx_openTelemetry (k a)) ->
  keeps_ctx_openTelemetry (await p k).
Proof.
  intros Hp Hk w. unfold await.
  specialize (Hp w).
  destruct (p w) as [[a | e |] w1]; simpl in *; try assumption.
  rewrite Hk. assumption.
Qed.

Lemma trace_keeps tracer name attributes fn :
  (forall s, keeps_ctx_openTelemetry (fn s)) ->
  keeps_ctx_openTelemetry (trace tracer name attributes fn).
Proof.
  intros Hfn w.
  destruct (ctx_openTelemetry w) as [ot |] eqn:Hot.
  - rewrite (trace_runs_fn _ _ _ _ _ _ Hot).
    assert (Hat : ctx_openTelemetry (at_fn tracer name attributes w)
                  = Some ot).
    { unfold at_fn, trace, await, read, never. simpl. rewrite Hot.
      simpl. assumption. }
    specialize (Hfn (next_span w) (at_fn tracer name attributes w)).
    rewrite Hat in Hfn.
    destruct (fn _ _) as [[v | e |] w2]; simpl in *; assumption.
  - unfold trace, await, read. simpl. rewrite Hot. simpl. assumption.
Qed.

Lemma transformers_keep transport (ts : list Tracer) :
  forall method payload signal,
    keeps_ctx_openTelemetry
      (fold_right
         (fun tracer prev =>
            updateTransformer JSON_stringify serialize tracer prev)
         (callApi transport) ts method payload signal).
Proof.
  induction ts as [| tracer ts IH]; intros method payload signal w; simpl.
  - reflexivity.
  - rewrite updateTransformer_runs_prev.
    specialize (IH method payload signal
                  (at_prev JSON_stringify serialize tracer method payload w)).
    destruct (at_prev_fields tracer method payload w) as (_ & _ & Hat).
    rewrite Hat in IH.
    destruct (serialize payload) as [body | | e]; [| | exact Hat];
      match goal with
      | |- context [match ?call with _ => _ end] =>
          destruct call as [[response | e |] w2]
      end; simpl in *; assumption.
Qed.

Lemma ctx_api_keeps transport method payload :
  keeps_ctx_openTelemetry (ctx_api JSON_stringify serialize transport method
      payload).
Proof.
  intros w. unfold ctx_api. apply transformers_keep.
Qed.

Lemma run_keeps tracer transport h :
  keeps_ctx_openTelemetry (run JSON_stringify serialize tracer transport h).
Proof.
  induction h as [| reason | | name attributes fn IHfn rest IHrest
                  | method payload rest IHrest]; simpl.
  - intros w. reflexivity.
  - intros w. reflexivity.
  - intros w. reflexivity.
  - apply await_keeps; [| intros _; exact IHrest].
    apply trace_keeps. intros _.
    apply await_keeps; [exact IHfn |]. intros _ w. reflexivity.
  - apply await_keeps; [apply ctx_api_keeps | intros _; exact IHrest].
Qed.

(** Handlers only add to the log, and only calls on spans they opened. *)

Lemma await_adds_from n {A B} (p : Async A) (k : A -> Async B) :
  adds_from n p ->
  (forall a, adds_from n (k a)) ->
  adds_from n (await p k).
Proof.
  intros Hp Hk w Hn. unfold await.
  destruct (Hp w Hn) as (Hn1 & l1 & Hl1 & HF1).
  destruct (p w) as [[a | e |] w1]; simpl in *;
    try (split; [assumption | exists l1; split; assumption]).
  destruct (Hk a w1 Hn1) as (Hn2 & l2 & Hl2 & HF2).
  split; [assumption |].
  exists (l1 ++ l2). split.
  - rewrite Hl2, Hl1, app_assoc. reflexivity.
  - apply Forall_app. split; assumption.
Qed.

Lemma trace_adds_from n tracer name attributes fn :
  (forall s, adds_from n (fn s)) ->
  adds_from n (trace tracer name attributes fn).
Proof.
  intros Hfn w Hn.
  destruct (ctx_openTelemetry w) as [ot |] eqn:Hot.
  - rewrite (trace_runs_fn _ _ _ _ _ _ Hot).
    assert (Hnext : next_span (at_fn tracer name attributes w)
                    = S (next_span w)).
    { unfold at_fn, trace, await, read, never. simpl. rewrite Hot.
      reflexivity. }
    destruct (Hfn (next_span w) (at_fn tracer name attributes w))
      as (Hn2 & l & Hl & HF); [rewrite Hnext; lia |].
    rewrite (at_fn_log _ _ _ _ _ Hot) in Hl.
    destruct (fn _ _) as [[v | e |] w2]; simpl in *;
      (split; [assumption |]); eexists;
      (split; [rewrite Hl, <- !app_assoc; reflexivity |]);
      repeat (apply Forall_app; split);
      try assumption; repeat constructor; simpl; assumption.
  - unfold trace, await, read. simpl. rewrite Hot. simpl.
    split; [assumption |]. exists []. split; [| constructor].
    rewrite app_nil_r. reflexivity.
Qed.

Lemma request_events_from n s method r :
  n <= s ->
  Forall (fun e => n <= event_span e) (request_events s method r).
Proof.
  intros Hs. unfold request_events.
  destruct (returned r); repeat constructor; assumption.
Qed.

Lemma transformers_add_from n transport (ts : list Tracer) :
  forall method payload signal,
    adds_from n
      (fold_right
         (fun tracer prev =>
            updateTransformer JSON_stringify serialize tracer prev)
         (callApi transport) ts method payload signal).
Proof.
  induction ts as [| tracer ts IH]; intros method payload signal w Hn; simpl.
  - split; [assumption |]. exists []. split; [| constructor].
    rewrite app_nil_r. reflexivity.
  - rewrite updateTransformer_runs_prev.
    destruct (at_prev_fields tracer method payload w) as (Hnext & _ & _).
    destruct (IH method payload signal
                (at_prev JSON_stringify serialize tracer method payload w))
      as (Hn2 & l & Hl & HF); [rewrite Hnext; lia |].
    rewrite at_prev_log in Hl.
    pose proof (request_events_from n (next_span w) method
                  (serialize payload) Hn) as Hreq.
    assert (Hthrown :
              n <= next_span (at_prev JSON_stringify serialize tracer method
                                payload w)
              /\ exists l0,
                  log (at_prev JSON_stringify serialize tracer method
                         payload w) = log w ++ l0
                  /\ Forall (fun e => n <= event_span e) l0).
    { split; [rewrite Hnext; lia |]. eexists.
      split; [apply at_prev_log |].
      constructor; [exact Hn | exact Hreq]. }
    destruct (serialize payload) as [body | | e]; [| | exact Hthrown];
      match goal with
      | |- context [match ?call with _ => _ end] =>
          destruct call as [[response | e |] w2]
      end; simpl in *;
      (split; [assumption |]); eexists;
      (split; [rewrite Hl, <- !app_assoc; reflexivity |]);
      repeat (apply Forall_app; split);
      try assumption; repeat constructor; simpl; assumption.
Qed.

Lemma run_adds_from n tracer transport h :
  adds_from n (run JSON_stringify serialize tracer transport h).
Proof.
  assert (Hnone : forall A (r : Settled A),
             adds_from n (fun w => (r, w))).
  { intros A r w Hn. split; [assumption |]. exists [].
    split; [| constructor]. simpl. rewrite app_nil_r. reflexivity. }
  induction h as [| reason | | name attributes fn IHfn rest IHrest
                  | method payload rest IHrest]; simpl.
  - apply Hnone.
  - apply Hnone.
  - apply Hnone.
  - apply await_adds_from; [| intros _; exact IHrest].
    apply trace_adds_from. intros _.
    apply await_adds_from; [exact IHfn |]. intros _. apply Hnone.
  - apply await_adds_from; [| intros _; exact IHrest].
    intros w Hn. unfold ctx_api. apply transformers_add_from. exact Hn.
Qed.

(** X15. For every handler, the middleware ends the root span once when
    the handler is fulfilled and not at all otherwise. *)
Lemma root_span_of_handler tracer transport update h w :
  ends (next_span w) (log w) = 0 ->
  ends (next_span w)
    (log (snd (openTelemetry JSON_stringify tracer update
                 (run JSON_stringify serialize tracer transport h) w)))
  = match fst (run JSON_stringify serialize tracer transport h
                 (at_next JSON_stringify tracer update w)) with
    | Fulfilled _ => 1
    | _ => 0
    end.
Proof.
  intros Hfresh. rewrite openTelemetry_runs_next.
  destruct (run_adds_from (S (next_span w)) tracer transport h
              (at_next JSON_stringify tracer update w))
    as (_ & l & Hl & HF); [apply Nat.le_refl |].
  assert (Hw2 : ends (next_span w)
                  (log (snd (run JSON_stringify serialize tracer transport h
                               (at_next JSON_stringify tracer update w)))) = 0).
  { rewrite Hl, at_next_log, !ends_app, Hfresh.
    rewrite (ends_of_later_spans _ _ _ HF (Nat.lt_succ_diag_r _)).
    reflexivity. }
  destruct (run _ _ _ _ _) as [[[] | e |] w2]; simpl in *; try exact Hw2.
  rewrite ends_app, Hw2, ends_end. reflexivity.
Qed.

(** C10. The middleware sets [ctx.openTelemetry] from the root span, and
    whatever a handler then does through [trace] and [ctx.api], however it
    settles, the fields [tracer], [context] and [spanContext] are those of
    the root span when the middleware is done. No handler run changes
    them. A call of [trace] moves [otContext] to the new span and leaves
    [ctx.openTelemetry] alone. *)
Theorem exposed_fields_stay_at_root tracer transport update h w :
  ctx_openTelemetry
    (snd (openTelemetry JSON_stringify tracer update
            (run JSON_stringify serialize tracer transport h) w))
  = Some (mkOpenTelemetry (spanContext (next_span w))
                          (setSpan (active w) (next_span w)) tracer)
  /\ (forall h' w',
        ctx_openTelemetry (snd (run JSON_stringify serialize tracer transport
            h' w'))
        = ctx_openTelemetry w')
  /\ (forall name attributes ot w',
        ctx_openTelemetry w' = Some ot ->
        otContext (at_fn tracer name attributes w')
          = setSpan (otContext w') (next_span w')
        /\ ctx_openTelemetry (at_fn tracer name attributes w') = Some ot).
Proof.
  split; [| split].
  - rewrite openTelemetry_runs_next.
    pose proof (run_keeps tracer transport h
                  (at_next JSON_stringify tracer update w)) as Hrun.
    rewrite at_next_ctx_openTelemetry in Hrun.
    destruct (run _ _ _ _ _) as [[[] | e |] w2]; simpl in *; assumption.
  - intros h' w'. apply run_keeps.
  - intros name attributes ot w' Hot. split.
    + apply (at_fn_otContext _ _ _ _ _ Hot).
    + unfold at_fn, trace, await, read, never. simpl. rewrite Hot.
      simpl. assumption.
Qed.

End Lifecycle.


(** * Scenarios *)

Example updateType_message : updateType msg_update = Some "message".
Proof. reflexivity. Qed.

Example updateType_without_type :
  updateType [("update_id", VNumber 1)] = None.
Proof. reflexivity. Qed.

Example request_body_hi :
  exists rest,
    added 3 (at_prev stringify stringify_payload 7 "sendMessage" hi in_update) =
      SpanStart 7 1 "api.sendMessage" [] (Some 0)
      :: AddEvent 1 "api.request"
           [("body",
             VString ("{" ++ quoted "text" ++ ":" ++ quoted "hi" ++
                 "}")%string)]
      :: rest.
Proof. eexists. vm_compute. reflexivity. Qed.
(** [trace] on a function that is fulfilled: the span is ended once. *)
Lemma trace_ends_span_when_fn_fulfils_witness :
  trace 7 "step1" [] (fun _ => resolve VUndefined) in_update =
    (Fulfilled tt, emit (SpanEnd 1) (at_fn 7 "step1" [] in_update))
  /\ ends 1 (log (emit (SpanEnd 1) (at_fn 7 "step1" [] in_update))) = 1.
Proof.
  apply (trace_ends_span_when_fn_fulfils 7 "step1" []
           (fun _ => resolve VUndefined) in_update
           (mkOpenTelemetry (spanContext 0) (setSpan ROOT_CONTEXT 0) 7)
           (Fulfilled VUndefined) (at_fn 7 "step1" [] in_update) []).
  - reflexivity.
  - reflexivity.
  - reflexivity.
  - reflexivity.
  - reflexivity.
Defined.

(** C1, as stated, fails: [trace("step1", {}, fn)] with an [fn] that throws
    starts the span [step1], rejects with the error of [fn], and leaves the
    span without an end. *)
Lemma trace_leaves_span_open_when_fn_throws :
  let result := trace 7 "step1" [] (fun _ => reject boom) in_update in
  fst result = Rejected boom
  /\ parent_of 1 (log (snd result)) = Some (Some 0)
  /\ ends 1 (log (snd result)) <> 1.
Proof.
  vm_compute. repeat split. discriminate.
Qed.

(** The transformers on a call that is fulfilled: each ends its span once. *)
Lemma api_span_ends_when_call_fulfils_witness :
  ends 0
    (log (snd (openTelemetryTransformer stringify stringify_payload 7
        default_options
                 (callApi ok_transport) "sendMessage" hi None empty_world)))
  = 1
  /\ ends 1
       (log (snd (updateTransformer stringify stringify_payload 7 (callApi
           ok_transport)
                    "sendMessage" hi None in_update)))
     = 1.
Proof.
  split.
  - apply (proj1 (api_span_ends_when_call_fulfils stringify stringify_payload
      7 default_options
                    (callApi ok_transport) "sendMessage" hi None empty_world
                    eq_refl eq_refl)
             (Fulfilled (VBool true))
             (at_prev_standalone stringify stringify_payload 7 "sendMessage"
                 hi empty_world)
             []); reflexivity.
  - apply (proj2 (api_span_ends_when_call_fulfils stringify stringify_payload
      7 default_options
                    (callApi ok_transport) "sendMessage" hi None in_update
                    eq_refl eq_refl)
             (Fulfilled (VBool true))
             (at_prev stringify stringify_payload 7 "sendMessage" hi in_update)
             []); reflexivity.
Defined.

(** C3, as stated, fails: when the wrapped call rejects, the standalone
    transformer and the update-scoped transformer have each started a span
    for the call and neither has ended it. *)
Lemma api_span_left_open_when_call_rejects :
  let standalone :=
    openTelemetryTransformer stringify stringify_payload 7 default_options
      (callApi failing_transport) "sendMessage" hi None empty_world in
  let scoped :=
    updateTransformer stringify stringify_payload 7 (callApi failing_transport)
      "sendMessage" hi None in_update in
  (parent_of 0 (log (snd standalone)) = Some None
   /\ ends 0 (log (snd standalone)) <> 1)
  /\ (parent_of 1 (log (snd scoped)) = Some (Some 0)
      /\ ends 1 (log (snd scoped)) <> 1).
Proof.
  vm_compute. repeat split; discriminate.
Qed.

(** The middleware around a handler that sends one message: the root span
    is ended once, after the call. *)
Lemma root_span_ends_after_next_fulfils_witness :
  let next := run stringify stringify_payload 7 ok_transport send_handler in
  let w2 := snd (next in_update) in
  openTelemetry stringify 7 msg_update next empty_world =
    (Fulfilled tt, emit (SpanEnd 0) w2)
  /\ log (emit (SpanEnd 0) w2) =
       log in_update ++ added 3 w2 ++ [SpanEnd 0]
  /\ ends 0 (log (emit (SpanEnd 0) w2)) = 1.
Proof.
  exact (root_span_ends_after_next_fulfils stringify 7 msg_update
           (run stringify stringify_payload 7 ok_transport send_handler)
               empty_world
           (Fulfilled tt)
           (snd (run stringify stringify_payload 7 ok_transport send_handler
               in_update))
           (added 3
              (snd (run stringify stringify_payload 7 ok_transport
                  send_handler in_update)))
           eq_refl eq_refl eq_refl eq_refl).
Defined.

(** C4, as stated, fails: when [next()] rejects, the middleware rejects
    with the same error, and the root span it started is left without an
    end. *)
Lemma root_span_left_open_when_next_rejects :
  let result :=
    openTelemetry stringify 7 msg_update (reject boom) empty_world in
  fst result = Rejected boom
  /\ parent_of 0 (log (snd result)) = Some None
  /\ ends 0 (log (snd result)) <> 1.
Proof.
  vm_compute. repeat split. discriminate.
Qed.

(** The middleware called from inside span 5: the root span of the update
    has no parent. *)
Lemma one_root_span_per_update_witness :
  exists tail,
    log (snd (openTelemetry stringify 7 msg_update
                (run stringify stringify_payload 7 ok_transport send_handler)
                    ambient_world)) =
      log ambient_world ++
      SpanStart 7 6 "update.message" [("root", VBool true)] None
      :: SetAttribute 6 "update.type" (VString "message")
      :: SetAttribute 6 "update.body"
           (VString (stringify (VObject msg_update)))
      :: added 3 (snd (run stringify stringify_payload 7 ok_transport
          send_handler
                         (at_next stringify 7 msg_update ambient_world)))
         ++ tail
    /\ starts tail = [].
Proof.
  exact (one_root_span_per_update stringify 7 msg_update
           (run stringify stringify_payload 7 ok_transport send_handler)
               ambient_world
           (Fulfilled tt)
           (snd (run stringify stringify_payload 7 ok_transport send_handler
                   (at_next stringify 7 msg_update ambient_world)))
           (added 3 (snd (run stringify stringify_payload 7 ok_transport
               send_handler
                            (at_next stringify 7 msg_update ambient_world))))
           eq_refl eq_refl).
Defined.



(** C9, as stated, fails: on an update with no key but [update_id] the
    classification raises no error and none reaches the caller; the
    middleware names the root span [update.undefined], calls [next()] and
    is fulfilled. *)
Lemma update_without_type_raises_nothing :
  let update := [("update_id", VNumber 1)] in
  let result := openTelemetry stringify 7 update (resolve tt) empty_world in
  updateType update = None
  /\ fst result = Fulfilled tt
  /\ log (snd result) =
       [SpanStart 7 0 "update.undefined" [("root", VBool true)] None;
        SetAttribute 0 "update.type" VUndefined;
        SetAttribute 0 "update.body"
          (VString (stringify (VObject update)));
        SpanEnd 0].
Proof.
  vm_compute. repeat split.
Qed.

(** A polling call under options that skip polling. *)
Lemma skipped_call_is_forwarded_witness :
  openTelemetryTransformer stringify stringify_payload 7 skip_polling (callApi
      ok_transport)
    "getUpdates" VNull None empty_world
  = callApi ok_transport "getUpdates" VNull None empty_world.
Proof.
  apply (skipped_call_is_forwarded stringify stringify_payload 7 skip_polling
           (callApi ok_transport) "getUpdates" VNull None empty_world).
  reflexivity.
Defined.

(** The nested handler under the middleware: [ctx.openTelemetry] still
    points at the root span, and a first [trace] moved only [otContext]. *)
Lemma exposed_fields_stay_at_root_witness :
  ctx_openTelemetry
    (snd (openTelemetry stringify 7 msg_update
            (run stringify stringify_payload 7 ok_transport nested_handler)
                empty_world))
  = Some (mkOpenTelemetry (spanContext 0) (setSpan ROOT_CONTEXT 0) 7)
  /\ otContext (at_fn 7 "a" [] in_update) = setSpan (setSpan ROOT_CONTEXT 0) 1
  /\ ctx_openTelemetry (at_fn 7 "a" [] in_update)
     = Some (mkOpenTelemetry (spanContext 0) (setSpan ROOT_CONTEXT 0) 7).
Proof.
  pose proof (exposed_fields_stay_at_root stringify stringify_payload 7
      ok_transport msg_update
                nested_handler empty_world) as [Hroot [_ Htrace]].
  split; [exact Hroot |].
  exact (Htrace "a" []
           (mkOpenTelemetry (spanContext 0) (setSpan ROOT_CONTEXT 0) 7)
           in_update eq_refl).
Defined.

(** C2 on the code: in the nested handler, the call [first] made inside
    span [a] (span 1) is opened under [a], the tracked context, yet the
    manual span [b] (span 3) opened right after it, still inside [a], is
    opened under the root span (span 0); the call [second] made inside [b]
    is opened under [b]. *)
Theorem nested_trace_is_child_of_root :
  let final :=
    snd (openTelemetry stringify 7 msg_update
           (run stringify stringify_payload 7 ok_transport nested_handler)
               empty_world) in
  map (fun e => match e with
                | SpanStart _ s name _ parent => (s, name, parent)
                | _ => (0, "", None)
                end) (starts (log final)) =
    [(0, "update.message", None);
     (1, "a", Some 0);
     (2, "api.first", Some 1);
     (3, "b", Some 0);
     (4, "api.second", Some 3)]
  /\ parent_of 3 (log final) <> Some (Some 1).
Proof.
  vm_compute. split; [reflexivity | discriminate].
Qed.

(** C8 on the code: with a delegate that rejects, calling the delegate
    directly gives a rejected promise, while the promise of the standalone
    transformer never settles and the rejection is left unhandled; the
    update-scoped transformer rejects with the error of the delegate. *)
Theorem standalone_transformer_hangs_on_rejection :
  let prev := callApi failing_transport in
  fst (prev "sendMessage" hi None empty_world) = Rejected boom
  /\ fst (openTelemetryTransformer stringify stringify_payload 7
      default_options prev
            "sendMessage" hi None empty_world) = Pending
  /\ unhandled (snd (openTelemetryTransformer stringify stringify_payload 7
      default_options prev
                       "sendMessage" hi None empty_world)) = [boom]
  /\ fst (updateTransformer stringify stringify_payload 7 prev "sendMessage"
      hi None in_update)
     = Rejected boom.
Proof.
  vm_compute. repeat split.
Qed.

(** * Further properties *)

Section Further.

Variable JSON_stringify : value -> string.
Variable serialize : value -> Stringified.

(** ** Steps of a handler *)

Lemma run_trace_step tracer transport name attributes fn rest w ot :
  ctx_openTelemetry w = Some ot ->
  run JSON_stringify serialize tracer transport (Trace name attributes fn
      rest) w =
    match run JSON_stringify serialize tracer transport fn
            (at_fn tracer name attributes w) with
    | (Fulfilled _, w2) =>
        run JSON_stringify serialize tracer transport rest
          (emit (SpanEnd (next_span w)) w2)
    | (Rejected e, w2) => (Rejected e, w2)
    | (Pending, w2) => (Pending, w2)
    end.
Proof.
  intros Hot. cbn [run]. unfold await at 1.
  rewrite (trace_runs_fn _ _ _ _ _ _ Hot). unfold await, resolve.
  destruct (run JSON_stringify serialize tracer transport fn _) as [[[] | e |]
      w2];
    reflexivity.
Qed.

Lemma run_trace_without_context tracer transport name attributes fn rest w :
  ctx_openTelemetry w = None ->
  run JSON_stringify serialize tracer transport (Trace name attributes fn
      rest) w =
    (Rejected TypeError, w).
Proof.
  intros Hot. cbn [run]. unfold await at 1, trace, await, read.
  rewrite Hot. reflexivity.
Qed.

Lemma run_api_step tracer transport method payload rest w :
  run JSON_stringify serialize tracer transport (Api method payload rest) w =
    match chain JSON_stringify serialize transport (api_transformers w)
            method payload None w with
    | (Fulfilled _, w1) => run JSON_stringify serialize tracer transport rest w1
    | (Rejected e, w1) => (Rejected e, w1)
    | (Pending, w1) => (Pending, w1)
    end.
Proof. reflexivity. Qed.

Lemma chain_step transport tracer ts method payload signal w :
  chain JSON_stringify serialize transport (tracer :: ts) method payload
      signal w =
    match serialize payload with
    | Throws e =>
        (Rejected e, at_prev JSON_stringify serialize tracer method payload w)
    | _ =>
        match chain JSON_stringify serialize transport ts method payload
                signal
                (at_prev JSON_stringify serialize tracer method payload w)
        with
        | (Fulfilled response, w2) =>
            (Fulfilled response,
             emit (SpanEnd (next_span w))
               (emit (AddEvent (next_span w) "api.response"
                        [("body", VString (JSON_stringify response))]) w2))
        | (Rejected e, w2) => (Rejected e, w2)
        | (Pending, w2) => (Pending, w2)
        end
    end.
Proof.
  unfold chain. cbn [fold_right]. apply updateTransformer_runs_prev.
Qed.

Lemma at_fn_next_span tracer name attributes w ot :
  ctx_openTelemetry w = Some ot ->
  next_span (at_fn tracer name attributes w) = S (next_span w).
Proof.
  intros Hot. unfold at_fn, trace, await, read, never. simpl.
  rewrite Hot. reflexivity.
Qed.

Lemma at_fn_ctx_openTelemetry tracer name attributes w ot :
  ctx_openTelemetry w = Some ot ->
  ctx_openTelemetry (at_fn tracer name attributes w) = Some ot.
Proof.
  intros Hot. unfold at_fn, trace, await, read, never. simpl.
  rewrite Hot. simpl. assumption.
Qed.

(** ** What the transformers do to the call *)

(** X1. The update-scoped transformer calls the delegate with the method,
    payload and signal it was given and settles as the delegate does:
    fulfilled with the same response, rejected with the same error, or
    never. When serializing the payload throws, it rejects with what was
    thrown, whatever the delegate would do. *)
Theorem updateTransformer_settles_as_prev
    tracer prev method payload signal w :
  fst (updateTransformer JSON_stringify serialize tracer prev method payload
         signal w)
  = match serialize payload with
    | Throws e => Rejected e
    | _ => fst (prev method payload signal
                  (at_prev JSON_stringify serialize tracer method payload w))
    end.
Proof.
  rewrite updateTransformer_runs_prev.
  destruct (serialize payload) as [body | | e]; try reflexivity;
    destruct (prev method payload signal _) as [[response | e |] w2];
    reflexivity.
Qed.

Lemma chain_result transport (ts : list Tracer) :
  forall method payload signal w,
    fst (chain JSON_stringify serialize transport ts method payload signal w)
    = match ts, serialize payload with
      | _ :: _, Throws e => Rejected e
      | _, _ => transport method payload
      end.
Proof.
  induction ts as [| tracer ts IH]; intros method payload signal w.
  - reflexivity.
  - rewrite chain_step.
    specialize (IH method payload signal
                  (at_prev JSON_stringify serialize tracer method payload w)).
    destruct (serialize payload) as [body | | e]; try reflexivity;
      destruct (chain JSON_stringify serialize transport ts method payload
                  signal _) as [[response | e |] w2];
      destruct ts; simpl in *; assumption.
Qed.

(** X2. A call through [ctx.api] whose payload [JSON.stringify] serializes
    settles as the transport does, however many update-scoped transformers
    are installed on it. When serializing the payload throws and a
    transformer is installed, the call rejects with what was thrown,
    whatever the transport would do. *)
Theorem ctx_api_settles_as_transport transport method payload w :
  fst (ctx_api JSON_stringify serialize transport method payload w)
  = match api_transformers w, serialize payload with
    | _ :: _, Throws e => Rejected e
    | _, _ => transport method payload
    end.
Proof.
  unfold ctx_api. apply (chain_result transport (api_transformers w)).
Qed.

(** X3. A call the standalone transformer does not skip is fulfilled, with
    the response of the delegate, exactly when serializing the payload does
    not throw and the delegate is fulfilled. When serializing the payload
    throws, the call rejects with what was thrown. *)
Theorem standalone_transformer_fulfils_with_delegate
    tracer options prev method payload signal w :
  skip options method payload = false ->
  (forall response,
      fst (openTelemetryTransformer JSON_stringify serialize tracer options
             prev method payload signal w) = Fulfilled response
      <-> returned (serialize payload) <> None
          /\ fst (prev method payload signal
                    (at_prev_standalone JSON_stringify serialize tracer
                       method payload w))
             = Fulfilled response)
  /\ (forall e,
        serialize payload = Throws e ->
        fst (openTelemetryTransformer JSON_stringify serialize tracer options
               prev method payload signal w) = Rejected e).
Proof.
  intros Hskip.
  rewrite (openTelemetryTransformer_runs_prev _ _ _ _ _ _ _ _ _ Hskip).
  split.
  - intros response.
    destruct (serialize payload) as [body | | e]; simpl.
    + destruct (prev method payload signal _) as [[r | e |] w2]; simpl;
        (split;
         [ intros H;
           first [discriminate H | split; [discriminate | exact H]]
         | intros [_ H]; first [discriminate H | exact H] ]).
    + destruct (prev method payload signal _) as [[r | e |] w2]; simpl;
        (split;
         [ intros H;
           first [discriminate H | split; [discriminate | exact H]]
         | intros [_ H]; first [discriminate H | exact H] ]).
    + split; [discriminate |]. intros [H _]. destruct H. reflexivity.
  - intros e He. rewrite He. reflexivity.
Qed.

(** ** Tracing hides no failure of a handler *)

(** X4. A handler that awaits its [trace] and [ctx.api] calls is fulfilled
    under the plugin only if it is fulfilled with the plugin taken out:
    [trace] and the transformers on [ctx.api] turn no failure into a
    fulfilment. *)
Theorem fulfilled_handler_is_fulfilled_without_plugin
    tracer transport h w :
  fst (run JSON_stringify serialize tracer transport h w) = Fulfilled tt ->
  settles transport h = Fulfilled tt.
Proof.
  revert w.
  induction h as [| reason | | name attributes fn IHfn rest IHrest
                  | method payload rest IHrest]; intros w Hrun;
    try (simpl in Hrun; discriminate Hrun); try reflexivity.
  - destruct (ctx_openTelemetry w) as [ot |] eqn:Hot.
    + rewrite (run_trace_step _ _ _ _ _ _ _ _ Hot) in Hrun. cbn [settles].
      specialize (IHfn (at_fn tracer name attributes w)).
      destruct (run JSON_stringify serialize tracer transport fn _)
        as [[[] | e |] w2]; simpl in *; try discriminate Hrun.
      rewrite (IHfn eq_refl). apply (IHrest _ Hrun).
    + rewrite (run_trace_without_context _ _ _ _ _ _ _ Hot) in Hrun.
      discriminate Hrun.
  - rewrite run_api_step in Hrun. cbn [settles].
    pose proof (chain_result transport (api_transformers w) method payload
                  None w) as Hres.
    destruct (chain JSON_stringify serialize transport _ _ _ _ _)
      as [[response | e |] w1]; simpl in *; try discriminate Hrun.
    assert (Htransport : transport method payload = Fulfilled response).
    { destruct (api_transformers w); [symmetry; exact Hres |].
      destruct (serialize payload); try discriminate Hres;
        symmetry; exact Hres. }
    rewrite Htransport. apply (IHrest _ Hrun).
Qed.

(** ** A fulfilled handler leaves no span open *)

Lemma ends_of_other_spans (s : span_id) (l : list event) :
  Forall (fun e => event_span e <> s) l ->
  ends s l = 0.
Proof.
  intros Hl. unfold ends.
  induction Hl as [| e l He _ IH]; simpl; [reflexivity |].
  destruct e as [tracer s' name options parent | s' name attributes
                 | s' key v | s']; simpl in *; try exact IH.
  destruct (Nat.eqb_spec s' s) as [-> | _]; [congruence | exact IH].
Qed.

Lemma closed_between_app n m k l1 l2 :
  n <= m -> m <= k ->
  closed_between n m l1 ->
  closed_between m k l2 ->
  closed_between n k (l1 ++ l2).
Proof.
  intros Hnm Hmk [HF1 He1] [HF2 He2]. split.
  - apply Forall_app. split.
    + eapply Forall_impl; [| exact HF1]. simpl. intros e He. lia.
    + eapply Forall_impl; [| exact HF2]. simpl. intros e He. lia.
  - intros s Hs. rewrite ends_app.
    destruct (Nat.lt_ge_cases s m) as [Hlt | Hge].
    + rewrite (He1 s) by lia.
      rewrite (ends_of_other_spans s l2); [reflexivity |].
      eapply Forall_impl; [| exact HF2]. simpl. intros e He. lia.
    + rewrite (He2 s) by lia.
      rewrite (ends_of_other_spans s l1); [reflexivity |].
      eapply Forall_impl; [| exact HF1]. simpl. intros e He. lia.
Qed.

Lemma closed_between_wrap n m before l after :
  S n <= m ->
  closed_between (S n) m l ->
  Forall (fun e => event_span e = n) before ->
  Forall (fun e => event_span e = n) after ->
  ends n before = 0 ->
  ends n after = 1 ->
  closed_between n m (before ++ l ++ after).
Proof.
  intros Hnm [HF He] Hbefore Hafter Hb Ha. split.
  - repeat (apply Forall_app; split).
    + eapply Forall_impl; [| exact Hbefore]. simpl. intros e <-. lia.
    + eapply Forall_impl; [| exact HF]. simpl. intros e H. lia.
    + eapply Forall_impl; [| exact Hafter]. simpl. intros e <-. lia.
  - intros s Hs. rewrite !ends_app.
    destruct (Nat.eq_dec s n) as [-> | Hneq].
    + rewrite Hb, Ha.
      rewrite (ends_of_other_spans n l); [reflexivity |].
      eapply Forall_impl; [| exact HF]. simpl. intros e H. lia.
    + rewrite (He s) by lia.
      rewrite (ends_of_other_spans s before), (ends_of_other_spans s after);
        [reflexivity | |].
      * eapply Forall_impl; [| exact Hafter]. simpl. intros e ->.
        intros H. apply Hneq. symmetry. exact H.
      * eapply Forall_impl; [| exact Hbefore]. simpl. intros e ->.
        intros H. apply Hneq. symmetry. exact H.
Qed.

Lemma request_events_on s method r :
  Forall (fun e => event_span e = s) (request_events s method r).
Proof.
  unfold request_events. destruct (returned r); repeat constructor.
Qed.

Lemma chain_closed transport (ts : list Tracer) :
  forall method payload signal w response w',
    chain JSON_stringify serialize transport ts method payload signal w
      = (Fulfilled response, w') ->
    next_span w <= next_span w'
    /\ exists l,
        log w' = log w ++ l
        /\ closed_between (next_span w) (next_span w') l.
Proof.
  induction ts as [| tracer ts IH];
    intros method payload signal w response w' Hrun.
  - unfold chain, callApi in Hrun. simpl in Hrun.
    injection Hrun as _ <-. split; [apply Nat.le_refl |].
    exists []. split; [rewrite app_nil_r; reflexivity |].
    split; [constructor | intros s Hs; lia].
  - rewrite chain_step in Hrun.
    destruct (at_prev_fields JSON_stringify serialize tracer method payload w)
      as (Hnext & _ & _).
    pose proof (at_prev_log JSON_stringify serialize tracer method payload w)
      as Hat.
    pose proof (request_events_on (next_span w) method (serialize payload))
      as Hon.
    assert (Hinner : exists w2,
               chain JSON_stringify serialize transport ts method payload
                 signal
                 (at_prev JSON_stringify serialize tracer method payload w)
               = (Fulfilled response, w2)
               /\ w' = emit (SpanEnd (next_span w))
                         (emit (AddEvent (next_span w) "api.response"
                                  [("body",
                                    VString (JSON_stringify response))])
                            w2)).
    { destruct (serialize payload) as [body | | e]; try discriminate Hrun;
        destruct (chain JSON_stringify serialize transport ts method payload
                    signal _) as [[response' | e |] w2];
        try discriminate Hrun; injection Hrun as <- <-;
        exists w2; split; reflexivity. }
    destruct Hinner as (w2 & Hinner & ->).
    destruct (IH _ _ _ _ _ _ Hinner) as (Hle & l & Hl & Hclosed).
    rewrite Hnext in Hle, Hclosed.
    split; [simpl; lia |].
    exists ((SpanStart tracer (next_span w) ("api." ++ method)%string []
               (getSpan (otContext w))
             :: request_events (next_span w) method (serialize payload))
            ++ l
            ++ [AddEvent (next_span w) "api.response"
                  [("body", VString (JSON_stringify response))];
                SpanEnd (next_span w)]).
    split.
    + rewrite !log_emit, Hl, Hat, <- !app_assoc. reflexivity.
    + apply closed_between_wrap; try assumption.
      * constructor; [reflexivity | exact Hon].
      * repeat constructor.
      * exact (ends_after_request (next_span w) tracer _ _ method
                 (serialize payload) [] eq_refl).
      * unfold ends. simpl. rewrite Nat.eqb_refl. reflexivity.
Qed.

Lemma run_closed tracer transport h :
  forall w w',
    run JSON_stringify serialize tracer transport h w = (Fulfilled tt, w') ->
    next_span w <= next_span w'
    /\ exists l,
        log w' = log w ++ l
        /\ closed_between (next_span w) (next_span w') l.
Proof.
  induction h as [| reason | | name attributes fn IHfn rest IHrest
                  | method payload rest IHrest]; intros w w' Hrun.
  - injection Hrun as <-. split; [apply Nat.le_refl |].
    exists []. split; [rewrite app_nil_r; reflexivity |].
    split; [constructor | intros s Hs; lia].
  - discriminate.
  - discriminate.
  - destruct (ctx_openTelemetry w) as [ot |] eqn:Hot.
    + rewrite (run_trace_step _ _ _ _ _ _ _ _ Hot) in Hrun.
      destruct (run JSON_stringify serialize tracer transport fn _)
        as [[[] | e |] w2] eqn:Hfn; try discriminate.
      destruct (IHfn _ _ Hfn) as (Hle1 & l1 & Hl1 & Hc1).
      destruct (IHrest _ _ Hrun) as (Hle2 & l2 & Hl2 & Hc2).
      rewrite (at_fn_next_span _ _ _ _ _ Hot) in Hle1, Hc1.
      rewrite (at_fn_log _ _ _ _ _ Hot) in Hl1.
      simpl in Hle2, Hl2, Hc2.
      split; [lia |].
      exists (([SpanStart tracer (next_span w) name attributes
                  (if truthy (get attributes "root") then None
                   else getSpan (ot_context ot))]
               ++ l1 ++ [SpanEnd (next_span w)]) ++ l2).
      split.
      * rewrite Hl2, Hl1, <- !app_assoc. reflexivity.
      * apply (closed_between_app _ (next_span w2)); try lia;
          [| assumption].
        apply closed_between_wrap; try assumption.
        -- repeat constructor.
        -- repeat constructor.
        -- reflexivity.
        -- apply ends_end.
    + rewrite (run_trace_without_context _ _ _ _ _ _ _ Hot) in Hrun.
      discriminate.
  - rewrite run_api_step in Hrun.
    destruct (chain JSON_stringify serialize transport _ _ _ _ _)
      as [[response | e |] w1] eqn:Hcall; try discriminate.
    destruct (chain_closed _ _ _ _ _ _ _ _ Hcall) as (Hle1 & l1 & Hl1 & Hc1).
    destruct (IHrest _ _ Hrun) as (Hle2 & l2 & Hl2 & Hc2).
    split; [lia |].
    exists (l1 ++ l2). split.
    + rewrite Hl2, Hl1, <- app_assoc. reflexivity.
    + apply (closed_between_app _ (next_span w1)); assumption.
Qed.

(** X5. When the middleware is fulfilled around a handler that awaits each
    of its [trace] and [ctx.api] calls and catches nothing (a [Handler]),
    no span is left open: every span started while the update was
    processed, the root span, the manual spans and the spans of outbound
    calls, however nested, has been ended exactly once. A handler that
    drops a promise, as [traced] does, or catches a rejection is outside
    this statement. *)
Theorem fulfilled_update_leaves_no_span_open tracer transport update h w :
  fst (openTelemetry JSON_stringify tracer update
         (run JSON_stringify serialize tracer transport h) w) = Fulfilled tt ->
  exists l,
    log (snd (openTelemetry JSON_stringify tracer update
                (run JSON_stringify serialize tracer transport h) w)) = log w
                    ++ l
    /\ forall tracer' s name options parent,
        In (SpanStart tracer' s name options parent) l -> ends s l = 1.
Proof.
  rewrite openTelemetry_runs_next.
  destruct (run JSON_stringify serialize tracer transport h _)
    as [[[] | e |] w2] eqn:Hrun; simpl; try discriminate.
  intros _.
  destruct (run_closed _ _ _ _ _ Hrun) as (Hle & l & Hl & Hclosed).
  rewrite at_next_log in Hl.
  assert (Hnext : next_span (at_next JSON_stringify tracer update w)
                  = S (next_span w)) by reflexivity.
  rewrite Hnext in Hle, Hclosed.
  assert (Hall : closed_between (next_span w) (next_span w2)
                   ([SpanStart tracer (next_span w)
                       ("update." ++ template (updateType update))%string
                       [("root", VBool true)] None;
                     SetAttribute (next_span w) "update.type"
                       (to_value (updateType update));
                     SetAttribute (next_span w) "update.body"
                       (VString (JSON_stringify (VObject update)))]
                    ++ l ++ [SpanEnd (next_span w)])).
  { apply closed_between_wrap; try assumption.
    - repeat constructor.
    - repeat constructor.
    - reflexivity.
    - apply ends_end. }
  eexists. split.
  - rewrite Hl, <- !app_assoc. reflexivity.
  - intros tracer' s name options parent Hin.
    destruct Hall as [HF He]. apply He.
    rewrite Forall_forall in HF. apply (HF _ Hin).
Qed.

(** ** What holds of every span a handler starts *)

Section StartedSpans.

(** [Inv] holds of the worlds a handler goes through and [P] of the calls
    it logs, when the two places that start a span keep them. *)
Variable Inv : World -> Prop.
Variable P : event -> Prop.

Hypothesis Inv_emit : forall e w, Inv w -> Inv (emit e w).

Hypothesis P_other : forall e, is_start e = false -> P e.

Hypothesis trace_start :
  forall tracer name attributes w ot,
    Inv w ->
    ctx_openTelemetry w = Some ot ->
    Inv (at_fn tracer name attributes w)
    /\ P (SpanStart tracer (next_span w) name attributes
            (if truthy (get attributes "root") then None
             else getSpan (ot_context ot))).

Hypothesis api_start :
  forall tracer method payload w,
    Inv w ->
    Inv (at_prev JSON_stringify serialize tracer method payload w)
    /\ P (SpanStart tracer (next_span w) ("api." ++ method)%string []
            (getSpan (otContext w))).

Lemma request_events_other s method r :
  Forall P (request_events s method r).
Proof.
  unfold request_events.
  destruct (returned r); repeat constructor; apply P_other; reflexivity.
Qed.

Lemma chain_started transport (ts : list Tracer) :
  forall method payload signal w,
    Inv w ->
    Inv (snd (chain JSON_stringify serialize transport ts method payload
                signal w))
    /\ exists l,
        log (snd (chain JSON_stringify serialize transport ts method payload
                    signal w))
          = log w ++ l
        /\ Forall P l.
Proof.
  induction ts as [| tracer ts IH]; intros method payload signal w Hw.
  - split; [exact Hw |]. exists []. split; [| constructor].
    simpl. rewrite app_nil_r. reflexivity.
  - rewrite chain_step.
    destruct (api_start tracer method payload w Hw) as [Hat HP].
    destruct (IH method payload signal _ Hat) as (Hw2 & l & Hl & HF).
    pose proof (at_prev_log JSON_stringify serialize tracer method payload w)
      as Hlog.
    pose proof (request_events_other (next_span w) method (serialize payload))
      as Hreq.
    rewrite Hlog in Hl.
    assert (Hthrown :
              Inv (at_prev JSON_stringify serialize tracer method payload w)
              /\ exists l0,
                  log (at_prev JSON_stringify serialize tracer method
                         payload w) = log w ++ l0
                  /\ Forall P l0).
    { split; [exact Hat |]. eexists. split; [exact Hlog |].
      constructor; assumption. }
    destruct (serialize payload) as [body | | e0]; [| | exact Hthrown];
      destruct (chain JSON_stringify serialize transport ts method payload
                  signal _) as [[response | e |] w2];
      cbn [snd] in *;
      (split; [repeat apply Inv_emit; assumption |]);
      eexists;
      (split; [rewrite ?log_emit, Hl, <- ?app_assoc; reflexivity |]);
      repeat (apply Forall_app; split); try assumption;
      repeat constructor; try assumption; apply P_other; reflexivity.
Qed.

Lemma run_started tracer transport h :
  forall w,
    Inv w ->
    Inv (snd (run JSON_stringify serialize tracer transport h w))
    /\ exists l,
        log (snd (run JSON_stringify serialize tracer transport h w)) = log w
            ++ l
        /\ Forall P l.
Proof.
  assert (Hnone : forall w, Inv w ->
             Inv w /\ exists l, log w = log w ++ l /\ Forall P l).
  { intros w Hw. split; [exact Hw |]. exists [].
    split; [rewrite app_nil_r; reflexivity | constructor]. }
  induction h as [| reason | | name attributes fn IHfn rest IHrest
                  | method payload rest IHrest]; intros w Hw;
    try (apply Hnone; exact Hw).
  - destruct (ctx_openTelemetry w) as [ot |] eqn:Hot.
    + rewrite (run_trace_step _ _ _ _ _ _ _ _ Hot).
      destruct (trace_start tracer name attributes w ot Hw Hot) as [Hat HP].
      destruct (IHfn _ Hat) as (Hw2 & l1 & Hl1 & HF1).
      rewrite (at_fn_log _ _ _ _ _ Hot) in Hl1.
      destruct (run JSON_stringify serialize tracer transport fn _)
        as [[[] | e |] w2]; simpl in Hw2, Hl1.
      * destruct (IHrest _ (Inv_emit (SpanEnd (next_span w)) _ Hw2))
          as (Hw3 & l2 & Hl2 & HF2).
        split; [exact Hw3 |]. eexists. split.
        -- rewrite Hl2. simpl. rewrite Hl1, <- !app_assoc. reflexivity.
        -- repeat (apply Forall_app; split); try assumption;
             repeat constructor; try assumption.
           apply P_other. reflexivity.
      * split; [exact Hw2 |]. eexists. split.
        -- simpl. rewrite Hl1, <- app_assoc. reflexivity.
        -- apply Forall_app. split; [| assumption].
           repeat constructor. assumption.
      * split; [exact Hw2 |]. eexists. split.
        -- simpl. rewrite Hl1, <- app_assoc. reflexivity.
        -- apply Forall_app. split; [| assumption].
           repeat constructor. assumption.
    + rewrite (run_trace_without_context _ _ _ _ _ _ _ Hot).
      apply Hnone. exact Hw.
  - rewrite run_api_step.
    destruct (chain_started transport (api_transformers w) method payload
                None w Hw) as (Hw1 & l1 & Hl1 & HF1).
    destruct (chain JSON_stringify serialize transport _ _ _ _ _)
      as [[response | e |] w1]; simpl in Hw1, Hl1.
    + destruct (IHrest _ Hw1) as (Hw2 & l2 & Hl2 & HF2).
      split; [exact Hw2 |]. exists (l1 ++ l2). split.
      * rewrite Hl2, Hl1, <- app_assoc. reflexivity.
      * apply Forall_app. split; assumption.
    + split; [exact Hw1 |]. exists l1. split; assumption.
    + split; [exact Hw1 |]. exists l1. split; assumption.
Qed.

End StartedSpans.

(** X6. Every span started while an update is processed, by the
    middleware, by [trace] or by an outbound call, however the handler is
    nested and however it settles, is started under a span that was
    started before it, or under none. *)
Theorem parents_are_started_first tracer transport update h w :
  exists l,
    log (snd (openTelemetry JSON_stringify tracer update
                (run JSON_stringify serialize tracer transport h) w)) = log w
                    ++ l
    /\ Forall parent_is_older l.
Proof.
  rewrite openTelemetry_runs_next.
  destruct (run_started contexts_exist parent_is_older) with
    (tracer := tracer) (transport := transport) (h := h)
    (w := at_next JSON_stringify tracer update w)
    as (_ & l & Hl & HF).
  - intros e w0 Hw0. exact Hw0.
  - intros [tracer' s name options parent | | |] He;
      try exact I. discriminate.
  - intros tracer' name attributes w0 ot [Hot Hctx] Hw0. split.
    + split.
      * rewrite (at_fn_otContext _ _ _ _ _ Hw0),
          (at_fn_next_span _ _ _ _ _ Hw0).
        simpl. intros p [= <-]. lia.
      * rewrite (at_fn_ctx_openTelemetry _ _ _ _ _ Hw0),
          (at_fn_next_span _ _ _ _ _ Hw0).
        intros ot' p [= <-] Hp. specialize (Hctx ot p Hw0 Hp). lia.
    + simpl. destruct (truthy (get attributes "root")); [exact I |].
      destruct (getSpan (ot_context ot)) as [p |] eqn:Hp; [| exact I].
      apply (Hctx ot p Hw0 Hp).
  - intros tracer' method payload w0 [Hot Hctx].
    destruct (at_prev_fields JSON_stringify serialize tracer' method payload
                w0) as (Hnext & Hsame & Hkept).
    split.
    + split.
      * rewrite Hsame, Hnext. intros p Hp. specialize (Hot p Hp). lia.
      * rewrite Hkept, Hnext. intros ot p Hw0 Hp.
        specialize (Hctx ot p Hw0 Hp). lia.
    + simpl. destruct (getSpan (otContext w0)) as [p |]; [| exact I].
      apply (Hot p eq_refl).
  - split.
    + simpl. intros p [= <-]. lia.
    + simpl. intros ot p [= <-]. simpl. intros [= <-]. lia.
  - rewrite at_next_log in Hl.
    destruct (run JSON_stringify serialize tracer transport h _)
      as [[[] | e |] w2]; simpl in *; eexists;
      (split; [rewrite Hl, <- !app_assoc; reflexivity |]);
      repeat (apply Forall_app; split); try assumption;
      repeat constructor.
Qed.

(** X7. Manual spans do not nest: every span started while an update is
    processed that is not named as an outbound call ([api.] and the
    method) is started under the root span of the update, however deep
    the [trace] calls are nested, or has no parent when it is started with
    a truthy [root] among its options, as the root span itself is. *)
Theorem manual_spans_hang_under_root tracer transport update h w :
  exists l,
    log (snd (openTelemetry JSON_stringify tracer update
                (run JSON_stringify serialize tracer transport h) w)) = log w
                    ++ l
    /\ Forall (api_or_under (setSpan (active w) (next_span w))) l.
Proof.
  rewrite openTelemetry_runs_next.
  set (c := setSpan (active w) (next_span w)).
  destruct (run_started
              (fun w0 => forall ot, ctx_openTelemetry w0 = Some ot ->
                                    ot_context ot = c)
              (api_or_under c)) with
    (tracer := tracer) (transport := transport) (h := h)
    (w := at_next JSON_stringify tracer update w)
    as (_ & l & Hl & HF).
  - intros e w0 Hw0. exact Hw0.
  - intros [tracer' s name options parent | | |] He;
      try exact I. discriminate.
  - intros tracer' name attributes w0 ot Hinv Hw0. split.
    + rewrite (at_fn_ctx_openTelemetry _ _ _ _ _ Hw0).
      intros ot' [= <-]. exact (Hinv ot Hw0).
    + simpl. right. rewrite (Hinv ot Hw0). reflexivity.
  - intros tracer' method payload w0 Hinv.
    destruct (at_prev_fields JSON_stringify serialize tracer' method payload
                w0) as (_ & _ & Hkept).
    split.
    + rewrite Hkept. exact Hinv.
    + simpl. left. destruct method; reflexivity.
  - simpl. intros ot [= <-]. reflexivity.
  - rewrite at_next_log in Hl.
    assert (Hroot : api_or_under c
                      (SpanStart tracer (next_span w)
                         ("update." ++ template (updateType update))%string
                         [("root", VBool true)] None)).
    { right. reflexivity. }
    destruct (run JSON_stringify serialize tracer transport h _)
      as [[[] | e |] w2]; simpl in Hl; simpl; eexists;
      (split; [rewrite Hl, <- !app_assoc; reflexivity |]);
      repeat (apply Forall_app; split); try assumption;
      repeat constructor; exact Hroot.
Qed.

(** ** Outbound calls and the tracked context *)

(** X8. [trace] moves the tracked context to its span and never moves it
    back: an outbound call made inside the function of a manual span is
    started under that span, and so is an outbound call made after the
    manual span has been ended, when the function opened no manual span of
    its own. *)
Theorem tracked_context_stays_on_ended_span
    tracer name attributes fn w ot v w2 tracer' method payload :
  ctx_openTelemetry w = Some ot ->
  fn (next_span w) (at_fn tracer name attributes w) = (Fulfilled v, w2) ->
  otContext w2 = otContext (at_fn tracer name attributes w) ->
  In (SpanStart tracer' (S (next_span w)) ("api." ++ method)%string []
        (Some (next_span w)))
     (log (at_prev JSON_stringify serialize tracer' method payload
             (at_fn tracer name attributes w)))
  /\ In (SpanEnd (next_span w))
        (log (snd (trace tracer name attributes fn w)))
  /\ In (SpanStart tracer'
           (next_span (snd (trace tracer name attributes fn w)))
           ("api." ++ method)%string [] (Some (next_span w)))
        (log (at_prev JSON_stringify serialize tracer' method payload
                (snd (trace tracer name attributes fn w)))).
Proof.
  intros Hot Hfn Hsame.
  pose proof (at_fn_otContext tracer name attributes w ot Hot) as Hctx.
  split; [| split].
  - rewrite at_prev_log, (at_fn_next_span _ _ _ _ _ Hot), Hctx.
    apply in_or_app. right. left. reflexivity.
  - rewrite (trace_runs_fn _ _ _ _ _ _ Hot), Hfn. simpl.
    apply in_or_app. right. left. reflexivity.
  - rewrite at_prev_log.
    rewrite (trace_runs_fn _ _ _ _ _ _ Hot), Hfn. simpl.
    rewrite Hsame, Hctx.
    apply in_or_app. right. left. reflexivity.
Qed.

(** X9. Once the middleware has run on a context with no transformer of
    its own, a call through [ctx.api] starts exactly one span: it is
    started by the tracer of the middleware, under the root span of the
    update; the request event and the method attribute follow when
    [JSON.stringify] serializes the payload, and nothing follows when it
    throws. *)
Theorem call_after_middleware_is_child_of_root
    tracer transport update method payload w :
  api_transformers w = [] ->
  exists tail,
    log (snd (ctx_api JSON_stringify serialize transport method payload
                (at_next JSON_stringify tracer update w))) =
      log (at_next JSON_stringify tracer update w) ++
      SpanStart tracer (S (next_span w)) ("api." ++ method)%string []
        (Some (next_span w))
      :: request_events (S (next_span w)) method (serialize payload)
      ++ tail
    /\ starts tail = []
    /\ (returned (serialize payload) = None -> tail = []).
Proof.
  intros Hnone. unfold ctx_api.
  assert (Hts : api_transformers (at_next JSON_stringify tracer update w)
                = [tracer]).
  { unfold at_next, openTelemetry, await, read, never. simpl.
    rewrite Hnone. reflexivity. }
  rewrite Hts.
  change (fold_right
            (fun tracer0 prev =>
               updateTransformer JSON_stringify serialize tracer0 prev)
            (callApi transport) [tracer])
    with (chain JSON_stringify serialize transport [tracer]).
  rewrite chain_step. unfold chain, callApi. cbn [fold_right].
  pose proof (at_prev_log JSON_stringify serialize tracer method payload
                (at_next JSON_stringify tracer update w)) as Hat.
  change (next_span (at_next JSON_stringify tracer update w))
    with (S (next_span w)) in Hat.
  change (getSpan (otContext (at_next JSON_stringify tracer update w)))
    with (Some (next_span w)) in Hat.
  destruct (serialize payload) as [body | | e].
  - destruct (transport method payload) as [response | e |]; cbn [snd].
    + eexists.
      split; [rewrite !log_emit, Hat, <- !app_assoc; reflexivity |].
      split; [reflexivity | discriminate].
    + exists []. split; [| split; [reflexivity | discriminate]].
      rewrite Hat, app_nil_r. reflexivity.
    + exists []. split; [| split; [reflexivity | discriminate]].
      rewrite Hat, app_nil_r. reflexivity.
  - destruct (transport method payload) as [response | e |]; cbn [snd].
    + eexists.
      split; [rewrite !log_emit, Hat, <- !app_assoc; reflexivity |].
      split; [reflexivity | discriminate].
    + exists []. split; [| split; [reflexivity | discriminate]].
      rewrite Hat, app_nil_r. reflexivity.
    + exists []. split; [| split; [reflexivity | discriminate]].
      rewrite Hat, app_nil_r. reflexivity.
  - exists []. split; [| split; reflexivity].
    cbn [snd]. rewrite Hat, app_nil_r. reflexivity.
Qed.

(** ** [traced] *)

Lemma traced_runs_fn name fn attributes next w ot :
  ctx_openTelemetry w = Some ot ->
  traced name fn attributes next w =
    match fn (next_span w) next
            (at_fn (ot_tracer ot) name
               (match attributes with Some a => a | None => [] end) w) with
    | (Fulfilled _, w2) => (Fulfilled tt, emit (SpanEnd (next_span w)) w2)
    | (Rejected e, w2) =>
        (Fulfilled tt, with_unhandled (e :: unhandled w2) w2)
    | (Pending, w2) => (Fulfilled tt, w2)
    end.
Proof.
  intros Hot. unfold traced, await at 1, read. rewrite Hot.
  unfold dropped. rewrite (trace_runs_fn _ _ _ _ _ _ Hot).
  unfold await, resolve. cbv beta.
  destruct (fn _ _ _) as [[[] | e |] w2]; reflexivity.
Qed.

(** X10. With [ctx.openTelemetry] in place, the middleware made by
    [traced] is fulfilled whatever its function does, since it drops the
    promise of [trace]; when the function rejects, the error reaches no
    caller, it is left as an unhandled rejection, and the span is not
    ended. *)
Theorem traced_never_rejects name fn attributes next w ot :
  ctx_openTelemetry w = Some ot ->
  fst (traced name fn attributes next w) = Fulfilled tt
  /\ forall e w2,
      fn (next_span w) next
         (at_fn (ot_tracer ot) name
            (match attributes with Some a => a | None => [] end) w)
        = (Rejected e, w2) ->
      snd (traced name fn attributes next w)
        = with_unhandled (e :: unhandled w2) w2.
Proof.
  intros Hot. rewrite (traced_runs_fn _ _ _ _ _ _ Hot). split.
  - destruct (fn _ _ _) as [[[] | e |] w2]; reflexivity.
  - intros e w2 Hfn. rewrite Hfn. reflexivity.
Qed.

(** X12. With a middleware made by [traced] downstream, the
    [openTelemetry] middleware is fulfilled and ends the root span
    whatever the traced function does, a rejection included. *)
Theorem root_span_ends_around_traced tracer update name fn attributes next w :
  fst (openTelemetry JSON_stringify tracer update
         (traced name fn attributes next) w) = Fulfilled tt
  /\ In (SpanEnd (next_span w))
        (log (snd (openTelemetry JSON_stringify tracer update
                     (traced name fn attributes next) w))).
Proof.
  rewrite openTelemetry_runs_next.
  rewrite (traced_runs_fn _ _ _ _ _ _
             (at_next_ctx_openTelemetry JSON_stringify tracer update w)).
  destruct (fn _ _ _) as [[[] | e |] w2];
    (split; [reflexivity |]);
    simpl; apply in_or_app; right; left; reflexivity.
Qed.

End Further.

(** ** [getHttpTracer] *)

Lemma set_property_new (o : object) (k : string) (v : value) :
  ~ In k (Object_keys o) ->
  set_property o k v = o ++ [(k, v)].
Proof.
  induction o as [| [k' v'] o IH]; simpl; intros Hk; [reflexivity |].
  destruct (String.eqb_spec k' k) as [-> | _].
  - exfalso. apply Hk. left. reflexivity.
  - rewrite IH; [reflexivity |]. intros Hin. apply Hk. right. exact Hin.
Qed.

Lemma find_resource_absent (c : object) :
  ~ In "resource" (Object_keys c) ->
  find (fun kv => String.eqb (fst kv) "resource") c = None.
Proof.
  induction c as [| [k v] c IH]; simpl; intros Hres; [reflexivity |].
  destruct (String.eqb_spec k "resource") as [-> | _].
  - exfalso. apply Hres. left. reflexivity.
  - apply IH. intros Hin. apply Hres. right. exact Hin.
Qed.

Lemma spread_under_resource (c : object) :
  forall (x : value) (others : object),
    NoDup (Object_keys c) ->
    ~ In "resource" (Object_keys others) ->
    (forall k, In k (Object_keys c) -> ~ In k (Object_keys others)) ->
    spread (("resource", x) :: others) c =
      ("resource",
       match find (fun kv => String.eqb (fst kv) "resource") c with
       | Some kv => snd kv
       | None => x
       end)
      :: others
      ++ filter (fun kv => negb (String.eqb (fst kv) "resource")) c.
Proof.
  unfold spread.
  induction c as [| [k v] c IH]; intros x others Hnodup Hres Hdisj.
  - simpl. rewrite app_nil_r. reflexivity.
  - simpl in Hnodup. apply NoDup_cons_iff in Hnodup as [Hk Hnodup].
    cbn [fold_left fst snd find filter set_property].
    rewrite (String.eqb_sym "resource" k).
    destruct (String.eqb_spec k "resource") as [-> | Hneq]; cbn [negb].
    + rewrite IH; try assumption.
      * rewrite (find_resource_absent c Hk). reflexivity.
      * intros k Hin. apply Hdisj. right. exact Hin.
    + rewrite set_property_new.
      * rewrite IH; try assumption.
        -- rewrite <- app_assoc. reflexivity.
        -- unfold Object_keys. rewrite map_app, in_app_iff.
           intros [Hin | [Heq | []]]; [exact (Hres Hin) |].
           simpl in Heq. congruence.
        -- intros k' Hin. unfold Object_keys. rewrite map_app, in_app_iff.
           intros [Hin' | [Heq | []]].
           ++ apply (Hdisj k'); [right; exact Hin | exact Hin'].
           ++ simpl in Heq. subst k'. exact (Hk Hin).
      * apply Hdisj. left. reflexivity.
Qed.

(** X13. When the provider configuration of the caller has no [resource]
    (or there is no provider configuration, or no options at all),
    [getHttpTracer] creates the provider with a resource holding the
    service name, followed by the configuration as given; it registers the
    provider and returns its tracer [grammy-otel]. *)
Theorem provider_gets_the_service_name
    SERVICE_NAME serviceName (options : HttpTracerOptions) :
  (forall c, providerConfig options = Some c ->
             NoDup (Object_keys c) /\ ~ In "resource" (Object_keys c)) ->
  getHttpTracer SERVICE_NAME serviceName (Some options) =
    [NewOTLPTraceExporter (exporterConfig options);
     NewBasicTracerProvider
       (("resource", Resource [(SERVICE_NAME, VString serviceName)])
        :: match providerConfig options with Some c => c | None => [] end);
     AddBatchSpanProcessor;
     Register;
     GetTracer "grammy-otel"]
  /\ getHttpTracer SERVICE_NAME serviceName None =
       [NewOTLPTraceExporter None;
        NewBasicTracerProvider
          [("resource", Resource [(SERVICE_NAME, VString serviceName)])];
        AddBatchSpanProcessor;
        Register;
        GetTracer "grammy-otel"].
Proof.
  intros Hconfig. split; [| reflexivity].
  unfold getHttpTracer, providerArgument.
  destruct (providerConfig options) as [c |]; [| reflexivity].
  destruct (Hconfig c eq_refl) as [Hnodup Hres].
  rewrite (spread_under_resource c _ [] Hnodup); [| intros [] | intros k _ []].
  pose proof (find_resource_absent c Hres) as Hfind.
  assert (Hfilter : filter (fun kv => negb (String.eqb (fst kv) "resource")) c
                    = c).
  { apply forallb_filter_id. apply forallb_forall. intros [k v] Hin. simpl.
    apply negb_true_iff, String.eqb_neq. intros ->. apply Hres.
    apply (in_map fst) in Hin. exact Hin. }
  rewrite Hfind, Hfilter. reflexivity.
Qed.

(** X14. When the provider configuration of the caller has a [resource] of
    its own, that resource is the one the provider is created with, and
    the service name passed to [getHttpTracer] is dropped: the calls made
    are the same for every service name. *)
Theorem own_resource_replaces_the_service_name
    SERVICE_NAME serviceName (options : HttpTracerOptions) c r :
  providerConfig options = Some c ->
  NoDup (Object_keys c) ->
  In ("resource", r) c ->
  (forall config,
      In (NewBasicTracerProvider config)
         (getHttpTracer SERVICE_NAME serviceName (Some options)) ->
      get config "resource" = r)
  /\ forall otherName,
      getHttpTracer SERVICE_NAME otherName (Some options)
      = getHttpTracer SERVICE_NAME serviceName (Some options).
Proof.
  intros Hc Hnodup Hin.
  assert (Hfind : find (fun kv => String.eqb (fst kv) "resource") c
                  = Some ("resource", r)).
  { clear Hc. induction c as [| [k v] c IH]; [destruct Hin |].
    simpl in Hnodup. apply NoDup_cons_iff in Hnodup as [Hk Hnodup].
    simpl. destruct (String.eqb_spec k "resource") as [-> | Hneq].
    - destruct Hin as [Heq | Hin]; [congruence |].
      exfalso. apply Hk. apply (in_map fst) in Hin. exact Hin.
    - destruct Hin as [Heq | Hin]; [congruence |].
      apply IH; assumption. }
  assert (Harg : forall anyName,
             providerArgument SERVICE_NAME anyName options =
               ("resource", r)
               :: filter (fun kv => negb (String.eqb (fst kv) "resource")) c).
  { intros anyName. unfold providerArgument. rewrite Hc.
    rewrite (spread_under_resource c _ [] Hnodup);
      [| intros [] | intros k _ []].
    rewrite Hfind. reflexivity. }
  split.
  - intros config Hcall. unfold getHttpTracer in Hcall.
    destruct Hcall as [Heq | [Heq | [Heq | [Heq | [Heq | []]]]]];
      try discriminate.
    injection Heq as <-. rewrite Harg. reflexivity.
  - intros otherName. unfold getHttpTracer. rewrite !Harg. reflexivity.
Qed.

(** ** Scenarios of the further properties *)

Lemma standalone_transformer_fulfils_with_delegate_witness :
  (fst (openTelemetryTransformer stringify stringify_payload 7
          default_options (callApi ok_transport) "sendMessage" hi None
          empty_world) = Fulfilled (VBool true)
   <-> returned (stringify_payload hi) <> None
       /\ fst (callApi ok_transport "sendMessage" hi None
                 (at_prev_standalone stringify stringify_payload 7
                    "sendMessage" hi empty_world))
          = Fulfilled (VBool true))
  /\ fst (openTelemetryTransformer stringify stringify_payload 7
            default_options (callApi ok_transport) "sendPhoto" photo None
            empty_world) = Rejected input_file_error.
Proof.
  split.
  - exact (proj1 (standalone_transformer_fulfils_with_delegate stringify
                    stringify_payload 7 default_options
                    (callApi ok_transport) "sendMessage" hi None empty_world
                    eq_refl) (VBool true)).
  - exact (proj2 (standalone_transformer_fulfils_with_delegate stringify
                    stringify_payload 7 default_options
                    (callApi ok_transport) "sendPhoto" photo None empty_world
                    eq_refl) input_file_error eq_refl).
Defined.

Lemma fulfilled_handler_is_fulfilled_without_plugin_witness :
  settles ok_transport nested_handler = Fulfilled tt.
Proof.
  apply (fulfilled_handler_is_fulfilled_without_plugin stringify
           stringify_payload 7 ok_transport nested_handler in_update).
  reflexivity.
Defined.

Lemma fulfilled_update_leaves_no_span_open_witness :
  exists l,
    log (snd (openTelemetry stringify 7 msg_update
                (run stringify stringify_payload 7 ok_transport
                    nested_handler) empty_world))
      = log empty_world ++ l
    /\ forall tracer' s name options parent,
        In (SpanStart tracer' s name options parent) l -> ends s l = 1.
Proof.
  apply (fulfilled_update_leaves_no_span_open stringify stringify_payload 7
      ok_transport
           msg_update nested_handler empty_world).
  reflexivity.
Defined.

Lemma tracked_context_stays_on_ended_span_witness :
  In (SpanStart 7 2 "api.sendMessage" [] (Some 1))
     (log (at_prev stringify stringify_payload 7 "sendMessage" hi (at_fn 7 "a"
         [] in_update)))
  /\ In (SpanEnd 1)
        (log (snd (trace 7 "a" [] (fun _ => resolve VUndefined) in_update)))
  /\ In (SpanStart 7 2 "api.sendMessage" [] (Some 1))
        (log (at_prev stringify stringify_payload 7 "sendMessage" hi
                (snd (trace 7 "a" [] (fun _ => resolve VUndefined)
                        in_update)))).
Proof.
  exact (tracked_context_stays_on_ended_span stringify stringify_payload 7 "a"
      []
           (fun _ => resolve VUndefined) in_update
           (mkOpenTelemetry (spanContext 0) (setSpan ROOT_CONTEXT 0) 7)
           VUndefined (at_fn 7 "a" [] in_update) 7 "sendMessage" hi
           eq_refl eq_refl eq_refl).
Defined.

Lemma call_after_middleware_is_child_of_root_witness :
  exists tail,
    log (snd (ctx_api stringify stringify_payload ok_transport "sendPhoto"
                photo in_update)) =
      log in_update ++
      SpanStart 7 1 "api.sendPhoto" [] (Some 0)
      :: request_events 1 "sendPhoto" (stringify_payload photo) ++ tail
    /\ starts tail = []
    /\ (returned (stringify_payload photo) = None -> tail = []).
Proof.
  exact (call_after_middleware_is_child_of_root stringify stringify_payload
           7 ok_transport msg_update "sendPhoto" photo empty_world eq_refl).
Defined.

Lemma traced_never_rejects_witness :
  fst (traced "command.ping" throwing None (resolve tt) in_update)
  = Fulfilled tt
  /\ unhandled
       (snd (traced "command.ping" throwing None (resolve tt) in_update))
     = [boom]
  /\ ends 1
       (log (snd (traced "command.ping" throwing None (resolve tt)
                    in_update)))
     = 0.
Proof.
  destruct (traced_never_rejects "command.ping" throwing None (resolve tt)
              in_update
              (mkOpenTelemetry (spanContext 0) (setSpan ROOT_CONTEXT 0) 7)
              eq_refl) as [Hfulfilled Hrejected].
  split; [exact Hfulfilled |].
  rewrite (Hrejected boom (at_fn 7 "command.ping" [] in_update) eq_refl).
  split; reflexivity.
Defined.

Lemma provider_gets_the_service_name_witness :
  getHttpTracer "service.name" "my-bot" (Some options_without_resource) =
    [NewOTLPTraceExporter
       (Some (VObject [("url", VString "http://collector")]));
     NewBasicTracerProvider
       [("resource", Resource [("service.name", VString "my-bot")]);
        ("forceFlushTimeoutMillis", VNumber 500)];
     AddBatchSpanProcessor;
     Register;
     GetTracer "grammy-otel"].
Proof.
  apply (provider_gets_the_service_name "service.name" "my-bot"
           options_without_resource).
  intros c [= <-]. split.
  - repeat constructor. intros [].
  - intros [H | []]. discriminate H.
Defined.

Lemma own_resource_replaces_the_service_name_witness :
  (forall config,
      In (NewBasicTracerProvider config)
         (getHttpTracer "service.name" "my-bot" (Some options_with_resource))
      -> get config "resource" = own_resource)
  /\ getHttpTracer "service.name" "another-bot" (Some options_with_resource)
     = getHttpTracer "service.name" "my-bot" (Some options_with_resource).
Proof.
  destruct (own_resource_replaces_the_service_name "service.name" "my-bot"
              options_with_resource config_with_resource own_resource
              eq_refl) as [Hresource Hsame].
  - repeat constructor.
    + intros [H | []]. discriminate H.
    + intros [].
  - right. left. reflexivity.
  - split; [exact Hresource | exact (Hsame "another-bot")].
Defined.

(** ** Spans of others *)

Section Frame.

Variable JSON_stringify : value -> string.
Variable serialize : value -> Stringified.

(** X16. While an update is processed, whatever the handler does and
    however it settles, the log only grows, and every call added to it is on
    a span started during this processing: no span that existed before is
    given an event or an attribute, or ended. *)
Theorem update_touches_only_its_own_spans tracer transport update h w :
  exists l,
    log (snd (openTelemetry JSON_stringify tracer update
                (run JSON_stringify serialize tracer transport h) w)) = log w
                    ++ l
    /\ Forall (fun e => next_span w <= event_span e) l.
Proof.
  rewrite openTelemetry_runs_next.
  destruct (run_adds_from JSON_stringify serialize (next_span w) tracer
      transport h
              (at_next JSON_stringify tracer update w))
    as (_ & l & Hl & HF); [simpl; lia |].
  rewrite at_next_log in Hl.
  destruct (run JSON_stringify serialize tracer transport h _)
    as [[[] | e |] w2]; simpl in Hl; simpl; eexists;
    (split; [rewrite Hl, <- !app_assoc; reflexivity |]);
    repeat (apply Forall_app; split); try assumption;
    repeat constructor.
Qed.

End Frame.

Lemma root_span_of_handler_witness :
  ends 0
    (log (snd (openTelemetry stringify 7 msg_update
                 (run stringify stringify_payload 7 failing_transport
                     nested_handler)
                 empty_world)))
  = 0
  /\ ends 0
       (log (snd (openTelemetry stringify 7 msg_update
                    (run stringify stringify_payload 7 ok_transport
                        nested_handler)
                    empty_world)))
     = 1.
Proof.
  split.
  - exact (root_span_of_handler stringify stringify_payload 7
      failing_transport msg_update
             nested_handler empty_world eq_refl).
  - exact (root_span_of_handler stringify stringify_payload 7 ok_transport
      msg_update
             nested_handler empty_world eq_refl).
Defined.
